(** * Senlin policy base class ([senlin/policies/base.py])

    A shallow embedding of the [Policy] base class: the versioned policy-data
    envelope, the attach guard, the hook filter [need_check], construction and
    rehydration from a stored record, [store]/[load] against the policy object
    store, and the trust-based connection parameters. *)

From Stdlib Require Import ZArith.
From stdpp Require Import base option list strings pretty gmap fin_maps.

Set Warnings "-register-all".

Open Scope string_scope.

(** ** Python values *)

(** The values the policy code moves around: [None], booleans, integers,
    strings, lists and string-keyed dicts.  Time stamps produced by
    [timeutils.utcnow()] are carried as [VTime]. *)
Inductive value : Type :=
  | VNone
  | VBool (b : bool)
  | VInt (z : Z)
  | VStr (s : string)
  | VTime (t : Z)
  | VList (l : list value)
  | VDict (d : gmap string value).

(** Exceptions raised by the modelled code, Python's own and senlin's. *)
Inductive exn : Type :=
  | TypeError
  | AttributeError
  | KeyError (key : string)
  | SpecValidationFailed
  | PolicyTypeNotFound (type_str : string)
  | PolicyNotFound (policy : value)
  | TrustNotFound (trustor : value)
  | StoreError (code : Z).

(** The outcome of a call: a returned value or a raised exception. *)
Inductive result (A : Type) : Type :=
  | Ok (a : A)
  | Raise (e : exn).
Arguments Ok {A} a.
Arguments Raise {A} e.

Definition bind {A B} (r : result A) (k : A -> result B) : result B :=
  match r with
  | Ok a => k a
  | Raise e => Raise e
  end.

Declare Scope py_scope.
Delimit Scope py_scope with py.
Notation "x <- c1 ;; c2" := (bind c1 (fun x => c2))
  (at level 100, c1 at next level, right associativity) : py_scope.
Open Scope py_scope.

(** [needle in haystack] on two [str] operands: substring containment. *)
Fixpoint str_contains (haystack needle : string) : bool :=
  if String.prefix needle haystack then true
  else match haystack with
       | EmptyString => false
       | String _ rest => str_contains rest needle
       end.

(** [v == s] where [s] is a [str]: only a [str] with the same characters. *)
Definition py_eq_str (v : value) (s : string) : bool :=
  match v with
  | VStr s' => String.eqb s' s
  | _ => false
  end.

(** [key in container] for a [str] key. *)
Definition py_in (key : string) (container : value) : result bool :=
  match container with
  | VDict d => Ok (bool_decide (is_Some (d !! key)))
  | VList l => Ok (existsb (fun v => py_eq_str v key) l)
  | VStr s => Ok (str_contains s key)
  | _ => Raise TypeError
  end.

(** [container.get(key, dflt)]: only dicts have a [get] method. *)
Definition py_get (container : value) (key : string) (dflt : value)
  : result value :=
  match container with
  | VDict d => Ok (default dflt (d !! key))
  | _ => Raise AttributeError
  end.

(** [container[key]] for a [str] key. *)
Definition py_getitem (container : value) (key : string) : result value :=
  match container with
  | VDict d => match d !! key with
               | Some v => Ok v
               | None => Raise (KeyError key)
               end
  | _ => Raise TypeError
  end.

(** ** Policy kinds *)

(** What a concrete policy class declares. *)
Inductive profile_type_decl : Type :=
  | PTStr (s : string)
  | PTList (l : list string).

Inductive target_decl : Type :=
  | TargetUndefined
  | TargetNone
  | TargetSet (l : list (string * string)).

Record kind : Type := Kind {
  clsname : string;
  VERSION : string;
  PROFILE_TYPE : profile_type_decl;
  TARGET : target_decl
}.

(** ** Policy data codec *)

Definition _build_policy_data (k : kind) (data : value) : value :=
  VDict {[ clsname k :=
             VDict (<["version" := VStr (VERSION k)]>
                      (<["data" := data]> ∅)) ]}.

Definition _extract_policy_data (k : kind) (policy_data : value)
  : result value :=
  present <- py_in (clsname k) policy_data ;;
  if negb present then Ok VNone
  else
    data <- py_get policy_data (clsname k) VNone ;;
    has_version <- py_in "version" data ;;
    if negb has_version then Ok VNone
    else
      v <- py_getitem data "version" ;;
      if negb (py_eq_str v (VERSION k)) then Ok VNone
      else py_get data "data" VNone.

(** ** Lifecycle guard *)

Module Profile.
Record t : Type := Make { type : string }.
End Profile.

Record Cluster : Type := {
  rt : gmap string Profile.t;
  cluster_user : value;
  cluster_project : value
}.

(** [self.PROFILE_TYPE == ['ANY']]: a [str] never equals a [list]. *)
Definition profile_type_is_any (decl : profile_type_decl) : bool :=
  match decl with
  | PTList l => bool_decide (l = ["ANY"])
  | PTStr _ => false
  end.

(** [ptype in self.PROFILE_TYPE]: element of a list, substring of a [str]. *)
Definition profile_type_in (ptype : string) (decl : profile_type_decl) : bool :=
  match decl with
  | PTList l => bool_decide (ptype ∈ l)
  | PTStr s => str_contains s ptype
  end.

(** [attach]: the translation marker [_()] leaves the message as it is, and
    ['%s' % profile.type] puts the profile type, a [str], at its end. *)
Definition attach (k : kind) (cluster : Cluster) : result (bool * value) :=
  if profile_type_is_any (PROFILE_TYPE k) then Ok (true, VNone)
  else
    match rt cluster !! "profile" with
    | None => Raise (KeyError "profile")
    | Some profile =>
        if negb (profile_type_in (Profile.type profile) (PROFILE_TYPE k))
        then
          let error := "Policy not applicable on profile type: "
                       +:+ Profile.type profile in
          Ok (false, VStr error)
        else Ok (true, VNone)
    end.

Definition detach (k : kind) (cluster : Cluster) : result (bool * value) :=
  Ok (true, VNone).

(** ** Hook filter *)

Record Action : Type := { action : string }.

(** [getattr(self, 'TARGET', None)] *)
Definition getattr_TARGET (k : kind) : option (list (string * string)) :=
  match TARGET k with
  | TargetUndefined => None
  | TargetNone => None
  | TargetSet l => Some l
  end.

Definition need_check (k : kind) (target : string) (act : Action) : bool :=
  match getattr_TARGET k with
  | None => true
  | Some l => if decide ((target, action act) ∈ l) then true else false
  end.

(** The attributes of the base class itself, inherited by every kind that
    does not override them: [VERSION] is bound by the [KEYS] tuple. *)
Definition base_VERSION : string := "version".
Definition base_PROFILE_TYPE : profile_type_decl := PTStr "ANY".
Definition base_TARGET : target_decl := TargetUndefined.

(** ** Policy instances and stored records *)

(** A record of the policy object store ([senlin.objects.policy.Policy]):
    flat, with the field names of the policy entity. *)
Module po.
Record Policy : Type := Make {
  id : value;
  name : value;
  type : value;
  spec : value;
  user : value;
  project : value;
  domain : value;
  data : value;
  created_at : value;
  updated_at : value
}.
End po.

(** An instance of a policy class: its concrete class and its attributes. *)
Record Policy : Type := MkPolicy {
  class_of : kind;
  name : value;
  spec : value;
  id : value;
  type : value;
  user : value;
  project : value;
  domain : value;
  data : value;
  created_at : value;
  updated_at : value;
  spec_data : value;
  properties : value;
  singleton : bool
}.

Definition set_id (v : value) (self : Policy) : Policy :=
  MkPolicy (class_of self) (name self) (spec self) v (type self) (user self)
    (project self) (domain self) (data self) (created_at self)
    (updated_at self) (spec_data self) (properties self) (singleton self).

Definition set_created_at (v : value) (self : Policy) : Policy :=
  MkPolicy (class_of self) (name self) (spec self) (id self) (type self)
    (user self) (project self) (domain self) (data self) v
    (updated_at self) (spec_data self) (properties self) (singleton self).

Definition set_updated_at (v : value) (self : Policy) : Policy :=
  MkPolicy (class_of self) (name self) (spec self) (id self) (type self)
    (user self) (project self) (domain self) (data self) (created_at self)
    v (spec_data self) (properties self) (singleton self).

(** The class a constructor call is made on: [Policy] itself or a concrete
    subclass. *)
Inductive cls : Type :=
  | PolicyBase
  | Concrete (k : kind).

(** ** Collaborators outside this module *)

(** [schema.get_spec_version] and the type registry reached through
    [environment.global_env()]. *)
Class Environment : Type := {
  get_spec_version : value -> result (value * value);
  get_policy : string -> result kind
}.

(** The request context handed through to the stores. *)
Record context : Type := { ctx_project : value; is_admin : bool }.

(** The policy object store [po.Policy]; every call may change the store
    and may raise. *)
Class PolicyStore (DB : Type) : Type := {
  policy_create : context -> gmap string value -> DB -> result po.Policy * DB;
  policy_update :
    context -> value -> gmap string value -> DB -> result po.Policy * DB;
  policy_get : context -> value -> bool -> DB -> result (option po.Policy)
}.

(** A credential record and the credential store [co.Credential]. *)
Record Credential : Type := { cred : value }.

Class CredentialStore : Type := {
  get_service_context : gmap string value;
  get_current : option context;
  credential_get :
    option context -> value -> value -> result (option Credential)
}.

(** ** Construction *)

(** ["-".join([type_name, version])] *)
Definition join_dash (type_name version : value) : result string :=
  match type_name, version with
  | VStr t, VStr v => Ok (t +:+ "-" +:+ v)
  | _, _ => Raise TypeError
  end.

Definition __new__ `{Environment} (c : cls) (spec : value) : result kind :=
  tv <- get_spec_version spec ;;
  type_str <- join_dash tv.1 tv.2 ;;
  match c with
  | Concrete k => Ok k
  | PolicyBase => get_policy type_str
  end.

(** [__init__]: a [schema.Spec] object keeps the data it is built from;
    checking it against the schema is left to [validate]. *)
Definition __init__ `{Environment} (k : kind) (name spec : value)
    (kwargs : gmap string value) : result Policy :=
  tv <- get_spec_version spec ;;
  type_str <- join_dash tv.1 tv.2 ;;
  props <- py_get spec "properties" (VDict ∅) ;;
  Ok {| class_of := k;
        name := name;
        spec := spec;
        id := default VNone (kwargs !! "id");
        type := default (VStr type_str) (kwargs !! "type");
        user := default VNone (kwargs !! "user");
        project := default VNone (kwargs !! "project");
        domain := default VNone (kwargs !! "domain");
        data := default (VDict ∅) (kwargs !! "data");
        created_at := default VNone (kwargs !! "created_at");
        updated_at := default VNone (kwargs !! "updated_at");
        spec_data := spec;
        properties := props;
        singleton := true |}.

(** The call [cls(name, spec, **kwargs)]: [__new__], then [__init__] on the
    object it made. *)
Definition construct `{Environment} (c : cls) (name spec : value)
    (kwargs : gmap string value) : result Policy :=
  k <- __new__ c spec ;;
  __init__ k name spec kwargs.

Definition _from_object `{Environment} (c : cls) (policy : po.Policy)
  : result Policy :=
  let kwargs : gmap string value :=
    <["id" := po.id policy]>
    (<["type" := po.type policy]>
    (<["user" := po.user policy]>
    (<["project" := po.project policy]>
    (<["domain" := po.domain policy]>
    (<["created_at" := po.created_at policy]>
    (<["updated_at" := po.updated_at policy]>
    (<["data" := po.data policy]> ∅))))))) in
  construct c (po.name policy) (po.spec policy) kwargs.

(** ** Persistence *)

Definition load `{Environment} `{PolicyStore DB} (c : cls) (ctx : context)
    (policy_id : value) (db_policy : option po.Policy) (project_safe : bool)
    (db : DB) : result Policy :=
  match db_policy with
  | Some p => _from_object c p
  | None =>
      found <- policy_get ctx policy_id project_safe db ;;
      match found with
      | None => Raise (PolicyNotFound policy_id)
      | Some p => _from_object c p
      end
  end.

(** [x is not None] *)
Definition is_not_none (v : value) : bool :=
  match v with
  | VNone => false
  | _ => true
  end.

(** The [values] dict [store] starts from. *)
Definition store_values (self : Policy) : gmap string value :=
  <["name" := name self]>
  (<["type" := type self]>
  (<["user" := user self]>
  (<["project" := project self]>
  (<["domain" := domain self]>
  (<["spec" := spec self]>
  (<["data" := data self]> ∅)))))).

(** [store]: [utcnow] is what [timeutils.utcnow()] reads at the call.  The
    outcome comes with the instance and the store as the call leaves them,
    also when the store raises. *)
Definition store `{PolicyStore DB} (utcnow : Z) (ctx : context)
    (self : Policy) (db : DB) : result value * Policy * DB :=
  let timestamp := VTime utcnow in
  let values := store_values self in
  if is_not_none (id self) then
    let self := set_updated_at timestamp self in
    let values := <["updated_at" := timestamp]> values in
    match policy_update ctx (id self) values db with
    | (Ok _, db') => (Ok (id self), self, db')
    | (Raise e, db') => (Raise e, self, db')
    end
  else
    let self := set_created_at timestamp self in
    let values := <["created_at" := timestamp]> values in
    match policy_create ctx values db with
    | (Ok policy, db') =>
        let self := set_id (po.id policy) self in
        (Ok (id self), self, db')
    | (Raise e, db') => (Raise e, self, db')
    end.

(** ** Trust-based connection parameters *)

Definition _build_conn_params `{CredentialStore} (k : kind)
    (cluster : Cluster) : result value :=
  let service_creds := VDict get_service_context in
  username <- py_get service_creds "username" VNone ;;
  password <- py_get service_creds "password" VNone ;;
  auth_url <- py_get service_creds "auth_url" VNone ;;
  user_domain_name <- py_get service_creds "user_domain_name" VNone ;;
  let params : gmap string value :=
    <["username" := username]>
    (<["password" := password]>
    (<["auth_url" := auth_url]>
    (<["user_domain_name" := user_domain_name]> ∅))) in
  found <- credential_get get_current (cluster_user cluster)
             (cluster_project cluster) ;;
  match found with
  | None => Raise (TrustNotFound (cluster_user cluster))
  | Some c =>
      openstack <- py_getitem (cred c) "openstack" ;;
      trust <- py_getitem openstack "trust" ;;
      Ok (VDict (<["trust_id" := trust]> params))
  end.

(** What it means for an instance to carry every field of a stored record. *)
Definition rehydrated_from (p : Policy) (r : po.Policy) : Prop :=
  id p = po.id r /\ name p = po.name r /\ type p = po.type r /\
  spec p = po.spec r /\ user p = po.user r /\ project p = po.project r /\
  domain p = po.domain r /\ data p = po.data r /\
  created_at p = po.created_at r /\ updated_at p = po.updated_at r.

Definition raises_TrustNotFound {A} (r : result A) : Prop :=
  exists trustor, r = Raise (TrustNotFound trustor).

(** ** Reference collaborators *)

(** Modelled from the spec: [schema.get_spec_version] (senlin/common/schema.py
    is not part of the sources at hand) extracts the [type] and [version]
    fields from the declaration. *)
Definition spec_get_spec_version (spec : value) : result (value * value) :=
  match spec with
  | VDict d =>
      match d !! "type", d !! "version" with
      | Some t, Some v => Ok (t, v)
      | _, _ => Raise SpecValidationFailed
      end
  | _ => Raise SpecValidationFailed
  end.

Definition ScalingPolicy : kind :=
  Kind "ScalingPolicy" "1.0" (PTList ["server"]) TargetUndefined.

(** Modelled from the spec: the type registry (senlin/engine/environment.py
    is not part of the sources at hand) maps a ["type-version"] key to the
    concrete kind registered under it; here one kind is registered. *)
Definition registry_get_policy (type_str : string) : result kind :=
  if String.eqb type_str "scaling-1.0" then Ok ScalingPolicy
  else Raise (PolicyTypeNotFound type_str).

#[export] Instance reference_environment : Environment := {
  get_spec_version := spec_get_spec_version;
  get_policy := registry_get_policy
}.

(** Modelled from the spec: the entity store (senlin/objects/policy.py and
    the database layer are not part of the sources at hand) keeps flat
    records keyed by identifier; [create] assigns the identifier, [update]
    overwrites the given fields of an existing record, [get] returns the
    record or nothing. *)
Record mem_db : Type := MemDB {
  rows : gmap string po.Policy;
  serial : nat
}.

Definition record_of_values (rid : value) (values : gmap string value)
  : po.Policy :=
  po.Make rid
    (default VNone (values !! "name")) (default VNone (values !! "type"))
    (default VNone (values !! "spec")) (default VNone (values !! "user"))
    (default VNone (values !! "project")) (default VNone (values !! "domain"))
    (default VNone (values !! "data"))
    (default VNone (values !! "created_at"))
    (default VNone (values !! "updated_at")).

Definition record_with_values (r : po.Policy) (values : gmap string value)
  : po.Policy :=
  po.Make (po.id r)
    (default (po.name r) (values !! "name"))
    (default (po.type r) (values !! "type"))
    (default (po.spec r) (values !! "spec"))
    (default (po.user r) (values !! "user"))
    (default (po.project r) (values !! "project"))
    (default (po.domain r) (values !! "domain"))
    (default (po.data r) (values !! "data"))
    (default (po.created_at r) (values !! "created_at"))
    (default (po.updated_at r) (values !! "updated_at")).

Definition mem_create (ctx : context) (values : gmap string value)
    (db : mem_db) : result po.Policy * mem_db :=
  let rid := "policy-" +:+ pretty (serial db) in
  let r := record_of_values (VStr rid) values in
  (Ok r, MemDB (<[rid := r]> (rows db)) (S (serial db))).

Definition mem_update (ctx : context) (policy_id : value)
    (values : gmap string value) (db : mem_db) : result po.Policy * mem_db :=
  match policy_id with
  | VStr rid =>
      match rows db !! rid with
      | Some r =>
          let r' := record_with_values r values in
          (Ok r', MemDB (<[rid := r']> (rows db)) (serial db))
      | None => (Raise (PolicyNotFound policy_id), db)
      end
  | _ => (Raise (PolicyNotFound policy_id), db)
  end.

Definition mem_get (ctx : context) (policy_id : value) (project_safe : bool)
    (db : mem_db) : result (option po.Policy) :=
  match policy_id with
  | VStr rid => Ok (rows db !! rid)
  | _ => Ok None
  end.

#[export] Instance mem_store : PolicyStore mem_db := {
  policy_create := mem_create;
  policy_update := mem_update;
  policy_get := mem_get
}.

(** Modelled from the spec: the credential store (senlin/objects/credential.py
    is not part of the sources at hand) maps an owner pair to a credential
    record; here it holds one record, for user [alice] in project [p1]. *)
Definition one_credential (ctx : option context) (user project : value)
  : result (option Credential) :=
  if py_eq_str user "alice" && py_eq_str project "p1"
  then Ok (Some {| cred := VDict {[ "openstack" :=
                                      VDict {[ "trust" := VStr "t-42" ]} ]} |})
  else Ok None.

#[export] Instance reference_credentials : CredentialStore := {
  get_service_context :=
    <["username" := VStr "senlin"]>
    (<["password" := VStr "secret"]>
    (<["auth_url" := VStr "http://keystone/v3"]>
    (<["user_domain_name" := VStr "Default"]> ∅)));
  get_current := None;
  credential_get := one_credential
}.

(** Sample data used in the worked cases below. *)
Definition base_kind : kind :=
  Kind "Policy" base_VERSION base_PROFILE_TYPE base_TARGET.

Definition cluster_of (ptype : string) : Cluster :=
  {| rt := {[ "profile" := Profile.Make ptype ]};
     cluster_user := VStr "alice";
     cluster_project := VStr "p1" |}.

Definition scaling_spec : value :=
  VDict (<["type" := VStr "scaling"]>
        (<["version" := VStr "1.0"]>
        (<["properties" := VDict ∅]> ∅))).

Definition admin_ctx : context := {| ctx_project := VStr "p1"; is_admin := true |}.

Definition fresh_policy : Policy :=
  MkPolicy ScalingPolicy (VStr "sp") scaling_spec VNone (VStr "scaling-1.0")
    (VStr "alice") (VStr "p1") VNone (VDict ∅) VNone VNone
    scaling_spec (VDict ∅) true.

Definition stored_policy : Policy :=
  MkPolicy ScalingPolicy (VStr "sp") scaling_spec (VStr "policy-7")
    (VStr "legacy-0.9") (VStr "alice") (VStr "p1") VNone (VDict ∅)
    (VTime 10) VNone scaling_spec (VDict ∅) true.

Definition stored_record : po.Policy :=
  po.Make (VStr "policy-7") (VStr "sp") (VStr "legacy-0.9") scaling_spec
    (VStr "alice") (VStr "p1") VNone (VDict ∅) (VTime 10) VNone.

(** ** Hooks, listing, deletion and the serialized form *)

Definition pre_op (k : kind) (cluster_id : value) (act : Action) : value :=
  VNone.

Definition post_op (k : kind) (cluster_id : value) (act : Action) : value :=
  VNone.

(** [utils.format_time], which [to_dict] applies to both time stamps. *)
Class Utils : Type := {
  format_time : value -> value
}.

Definition to_dict `{Utils} (self : Policy) : gmap string value :=
  <["id" := id self]>
  (<["name" := name self]>
  (<["type" := type self]>
  (<["user" := user self]>
  (<["project" := project self]>
  (<["domain" := domain self]>
  (<["spec" := spec self]>
  (<["created_at" := format_time (created_at self)]>
  (<["updated_at" := format_time (updated_at self)]>
  (<["data" := data self]> ∅))))))))).

(** The listing and deleting calls of the policy object store. *)
Class PolicyListing (DB : Type) : Type := {
  policy_get_all :
    context -> value -> value -> value -> value -> bool -> DB ->
    result (list po.Policy);
  policy_delete : context -> value -> DB -> result unit * DB
}.

Definition delete `{PolicyListing DB} (c : cls) (ctx : context)
    (policy_id : value) (db : DB) : result value * DB :=
  match policy_delete ctx policy_id db with
  | (Ok _, db') => (Ok VNone, db')
  | (Raise e, db') => (Raise e, db')
  end.

(** [load_all] is a generator.  Its states: created and not yet run, suspended
    at the [yield] with the records still to visit, and finished. *)
Inductive gen_state : Type :=
  | GenStart
  | GenLoop (objs : list po.Policy)
  | GenDone.

(** What one [next()] on the generator gives. *)
Inductive gen_step : Type :=
  | Yield (p : Policy)
  | StopIteration
  | Raised (e : exn).

(** The [for obj in objs: yield cls._from_object(obj)] loop, up to its next
    [yield]. *)
Definition load_all_loop `{Environment} (c : cls) (objs : list po.Policy)
  : gen_step * gen_state :=
  match objs with
  | [] => (StopIteration, GenDone)
  | obj :: rest =>
      match _from_object c obj with
      | Ok p => (Yield p, GenLoop rest)
      | Raise e => (Raised e, GenDone)
      end
  end.

(** One [next()] on [load_all(context, limit, marker, sort, filters,
    project_safe)]: the store is asked on the first one. *)
Definition load_all_next `{Environment} `{PolicyListing DB} (c : cls)
    (ctx : context) (limit marker sort filters : value) (project_safe : bool)
    (g : gen_state) (db : DB) : gen_step * gen_state :=
  match g with
  | GenStart =>
      match policy_get_all ctx limit marker sort filters project_safe db with
      | Ok objs => load_all_loop c objs
      | Raise e => (Raised e, GenDone)
      end
  | GenLoop objs => load_all_loop c objs
  | GenDone => (StopIteration, GenDone)
  end.

(** A consumer drawing at most [n] times: the instances it got, how the last
    draw ended when it was not a [yield], and the generator as left. *)
Fixpoint load_all_take `{Environment} `{PolicyListing DB} (n : nat) (c : cls)
    (ctx : context) (limit marker sort filters : value) (project_safe : bool)
    (g : gen_state) (db : DB) : list Policy * option gen_step * gen_state :=
  match n with
  | O => ([], None, g)
  | S n' =>
      match load_all_next c ctx limit marker sort filters project_safe g db
      with
      | (Yield p, g') =>
          let '(ps, stop, g'') :=
            load_all_take n' c ctx limit marker sort filters project_safe
              g' db in
          (p :: ps, stop, g'')
      | (step, g') => ([], Some step, g')
      end
  end.

(** Modelled from the spec: the listing side of the entity store returns the
    records it holds; deleting removes the record of the given identifier. *)
#[export] Instance mem_listing : PolicyListing mem_db := {
  policy_get_all := fun ctx limit marker sort filters project_safe db =>
    Ok (map snd (map_to_list (rows db)));
  policy_delete := fun ctx policy_id db =>
    match policy_id with
    | VStr rid => (Ok tt, MemDB (base.delete rid (rows db)) (serial db))
    | _ => (Ok tt, db)
    end
}.

(** Modelled from the spec: [utils.format_time] (senlin/common/utils.py is not
    part of the sources at hand) gives a time stamp its human-readable form
    and leaves a missing one missing. *)
Definition readable_time (v : value) : value :=
  match v with
  | VTime t => VStr (pretty t)
  | _ => VNone
  end.

#[export] Instance reference_utils : Utils := {
  format_time := readable_time
}.

(** An environment whose registry knows no type at all. *)
Definition empty_registry : Environment := {|
  get_spec_version := spec_get_spec_version;
  get_policy := fun type_str => Raise (PolicyTypeNotFound type_str)
|}.

Definition broken_record : po.Policy :=
  po.Make (VStr "policy-9") (VStr "bad") (VStr "x-1") (VDict ∅)
    VNone VNone VNone VNone VNone VNone.

(** A credential store whose records carry no trust at all. *)
Definition bare_credentials : CredentialStore := {|
  get_service_context := ∅;
  get_current := None;
  credential_get := fun ctx user project => Ok (Some {| cred := VDict ∅ |})
|}.

(** * Properties *)

(** ** Python value helpers *)

Lemma py_eq_str_refl s : py_eq_str (VStr s) s = true.
Proof. apply String.eqb_refl. Qed.

Lemma py_eq_str_true v s : py_eq_str v s = true <-> v = VStr s.
Proof.
  destruct v; simpl; try (split; [discriminate | intros [=]]).
  rewrite String.eqb_eq. split; [intros -> | intros [=]]; congruence.
Qed.

Lemma py_in_dict key (d : gmap string value) v :
  d !! key = Some v -> py_in key (VDict d) = Ok true.
Proof.
  intros Hk. simpl. rewrite bool_decide_eq_true_2; [done | by eexists].
Qed.

Lemma py_in_dict_absent key (d : gmap string value) :
  d !! key = None -> py_in key (VDict d) = Ok false.
Proof.
  intros Hk. simpl. rewrite bool_decide_eq_false_2; [done |].
  rewrite Hk. by intros [? ?].
Qed.

(** ** Policy data codec *)

Section codec.
Variable k : kind.

Lemma extract_absent (envelope : gmap string value) :
  envelope !! clsname k = None ->
  _extract_policy_data k (VDict envelope) = Ok VNone.
Proof.
  intros Hk. unfold _extract_policy_data.
  by rewrite (py_in_dict_absent _ _ Hk).
Qed.

Lemma extract_present (envelope entry : gmap string value) :
  envelope !! clsname k = Some (VDict entry) ->
  _extract_policy_data k (VDict envelope) =
    match entry !! "version" with
    | Some v => if py_eq_str v (VERSION k)
                then Ok (default VNone (entry !! "data")) else Ok VNone
    | None => Ok VNone
    end.
Proof.
  intros Hk. unfold _extract_policy_data.
  rewrite (py_in_dict _ _ _ Hk). cbn [bind negb py_get]. rewrite Hk.
  cbn [default from_option Datatypes.id].
  destruct (entry !! "version") as [v|] eqn:Hv.
  - rewrite (py_in_dict _ _ _ Hv). cbn [bind negb py_getitem].
    rewrite Hv. cbn [bind]. by destruct (py_eq_str v (VERSION k)).
  - by rewrite (py_in_dict_absent _ _ Hv).
Qed.
End codec.

(** C2: decoding what the codec has just encoded gives the payload back,
    for every payload, as long as the decoding kind has the class name and
    the [VERSION] the encoding was made under. *)
Theorem extract_build_roundtrip (k k' : kind) (payload : value) :
  clsname k' = clsname k ->
  VERSION k' = VERSION k ->
  _extract_policy_data k' (_build_policy_data k payload) = Ok payload.
Proof.
  intros Hname Hver. unfold _build_policy_data.
  rewrite (extract_present k' _
             (<["version" := VStr (VERSION k)]> (<["data" := payload]> ∅))).
  - rewrite lookup_insert_eq, Hver, py_eq_str_refl.
    rewrite lookup_insert_ne by done. by rewrite lookup_insert_eq.
  - rewrite Hname. apply lookup_singleton_eq.
Qed.

Lemma extract_build_roundtrip_witness :
  _extract_policy_data ScalingPolicy
    (_build_policy_data ScalingPolicy
       (VDict {[ "cooldown_until" := VInt 120 ]}))
  = Ok (VDict {[ "cooldown_until" := VInt 120 ]}).
Proof.
  apply (extract_build_roundtrip ScalingPolicy ScalingPolicy); reflexivity.
Defined.

(** C3: on an envelope of per-kind entries, decoding returns [None] when the
    kind's class name is not a key, and when the entry under that key does
    not carry exactly the kind's current [VERSION] as its version tag; in
    the remaining case it returns the entry's stored payload. *)
Theorem extract_policy_data_cases (k : kind) (envelope : gmap string value) :
  (envelope !! clsname k = None ->
   _extract_policy_data k (VDict envelope) = Ok VNone) /\
  (forall entry : gmap string value,
     envelope !! clsname k = Some (VDict entry) ->
     entry !! "version" <> Some (VStr (VERSION k)) ->
     _extract_policy_data k (VDict envelope) = Ok VNone) /\
  (forall entry : gmap string value,
     envelope !! clsname k = Some (VDict entry) ->
     entry !! "version" = Some (VStr (VERSION k)) ->
     _extract_policy_data k (VDict envelope)
       = Ok (default VNone (entry !! "data"))).
Proof.
  split; [apply extract_absent | split].
  - intros entry Hk Hver. rewrite (extract_present _ _ _ Hk).
    destruct (entry !! "version") as [v|]; [| done].
    destruct (py_eq_str v (VERSION k)) eqn:Heq; [| done].
    apply py_eq_str_true in Heq. congruence.
  - intros entry Hk Hver. rewrite (extract_present _ _ _ Hk), Hver.
    by rewrite py_eq_str_refl.
Qed.

Lemma extract_policy_data_cases_witness :
  _extract_policy_data ScalingPolicy
    (VDict {[ "HealthPolicy" := VDict {[ "version" := VStr "1.0" ]} ]})
    = Ok VNone /\
  _extract_policy_data ScalingPolicy
    (VDict {[ "ScalingPolicy" :=
                VDict (<["version" := VStr "0.9"]>
                         (<["data" := VInt 7]> ∅)) ]})
    = Ok VNone /\
  _extract_policy_data ScalingPolicy
    (VDict {[ "ScalingPolicy" :=
                VDict (<["version" := VStr "1.0"]>
                         (<["data" := VInt 7]> ∅)) ]})
    = Ok (VInt 7).
Proof.
  split; [| split].
  - apply (proj1 (extract_policy_data_cases ScalingPolicy _)).
    reflexivity.
  - apply (proj1 (proj2 (extract_policy_data_cases ScalingPolicy _))
             (<["version" := VStr "0.9"]> (<["data" := VInt 7]> ∅))).
    + reflexivity.
    + vm_compute. discriminate.
  - exact (proj2 (proj2 (extract_policy_data_cases ScalingPolicy
                           {[ "ScalingPolicy" :=
                                VDict (<["version" := VStr "1.0"]>
                                         (<["data" := VInt 7]> ∅)) ]}))
             (<["version" := VStr "1.0"]> (<["data" := VInt 7]> ∅))
             eq_refl eq_refl).
Defined.

(** ** Lifecycle guard *)

(** A kind declaring [PROFILE_TYPE = ['ANY']] attaches to every cluster, even
    one whose runtime data holds no profile. *)
Lemma attach_any_list (k : kind) (cluster : Cluster) :
  PROFILE_TYPE k = PTList ["ANY"] -> attach k cluster = Ok (true, VNone).
Proof. intros Hany. unfold attach. by rewrite Hany. Qed.

(** The base-class default is the [str] ['ANY']: the guard compares it with
    the list [['ANY']], finds them different, and goes on to a substring
    test of the profile type against ['ANY']. *)
Lemma attach_base_default (k : kind) (cluster : Cluster) (p : Profile.t) :
  PROFILE_TYPE k = base_PROFILE_TYPE ->
  rt cluster !! "profile" = Some p ->
  attach k cluster =
    if str_contains "ANY" (Profile.type p) then Ok (true, VNone)
    else Ok (false, VStr ("Policy not applicable on profile type: "
                          +:+ Profile.type p)).
Proof.
  intros Hdecl Hrt. unfold attach, base_PROFILE_TYPE in *.
  rewrite Hdecl, Hrt. cbn [profile_type_is_any profile_type_in].
  by destruct (str_contains "ANY" (Profile.type p)).
Qed.

(** C1: a kind that keeps the base-class default [PROFILE_TYPE] does not
    attach to every cluster: whenever the cluster's profile type is not a
    piece of the text ['ANY'] (as for [os.nova.server]), the guard answers
    with the "not applicable" message instead of [(True, None)]. *)
Theorem attach_base_default_rejects (k : kind) (cluster : Cluster)
    (p : Profile.t) :
  PROFILE_TYPE k = base_PROFILE_TYPE ->
  rt cluster !! "profile" = Some p ->
  str_contains "ANY" (Profile.type p) = false ->
  attach k cluster
  = Ok (false, VStr ("Policy not applicable on profile type: "
                     +:+ Profile.type p)).
Proof.
  intros Hdecl Hrt Hsub.
  rewrite (attach_base_default k cluster p Hdecl Hrt). by rewrite Hsub.
Qed.

Lemma attach_base_default_rejects_witness :
  attach base_kind (cluster_of "os.nova.server")
  = Ok (false, VStr "Policy not applicable on profile type: os.nova.server").
Proof.
  apply (attach_base_default_rejects base_kind (cluster_of "os.nova.server")
           (Profile.Make "os.nova.server")); reflexivity.
Defined.

(** C7: when the kind declares a list of profile types other than [['ANY']]
    and the cluster's profile type is not in the list, [attach] returns, as
    a value, [False] with the message naming that profile type. *)
Theorem attach_restricted_mismatch (k : kind) (cluster : Cluster)
    (allowed : list string) (p : Profile.t) :
  PROFILE_TYPE k = PTList allowed ->
  allowed <> ["ANY"] ->
  rt cluster !! "profile" = Some p ->
  Profile.type p ∉ allowed ->
  attach k cluster
  = Ok (false, VStr ("Policy not applicable on profile type: "
                     +:+ Profile.type p)).
Proof.
  intros Hdecl Hrestricted Hrt Hout. unfold attach. rewrite Hdecl, Hrt.
  cbn [profile_type_is_any profile_type_in].
  rewrite bool_decide_eq_false_2 by done.
  by rewrite bool_decide_eq_false_2 by done.
Qed.

Lemma attach_restricted_mismatch_witness :
  attach ScalingPolicy (cluster_of "container")
  = Ok (false, VStr "Policy not applicable on profile type: container").
Proof.
  apply (attach_restricted_mismatch ScalingPolicy (cluster_of "container")
           ["server"] (Profile.Make "container")).
  - reflexivity.
  - discriminate.
  - reflexivity.
  - apply not_elem_of_cons. split; [discriminate | apply not_elem_of_nil].
Defined.

(** On a matching profile type the same kind attaches. *)
Lemma attach_restricted_match (k : kind) (cluster : Cluster)
    (allowed : list string) (p : Profile.t) :
  PROFILE_TYPE k = PTList allowed ->
  rt cluster !! "profile" = Some p ->
  Profile.type p ∈ allowed ->
  attach k cluster = Ok (true, VNone).
Proof.
  intros Hdecl Hrt Hin. unfold attach. rewrite Hdecl, Hrt.
  cbn [profile_type_is_any profile_type_in].
  rewrite (bool_decide_eq_true_2 (Profile.type p ∈ allowed)) by done.
  by destruct (bool_decide (allowed = ["ANY"])).
Qed.

(** ** Hook filter *)

(** C6: without a declared [TARGET] every action needs checking; with one,
    exactly the declared (target, action name) pairs do. *)
Theorem need_check_spec (k : kind) (target : string) (act : Action) :
  (getattr_TARGET k = None -> need_check k target act = true) /\
  (forall declared : list (string * string),
     TARGET k = TargetSet declared ->
     (need_check k target act = true <-> (target, action act) ∈ declared)).
Proof.
  unfold need_check, getattr_TARGET. split.
  - by intros ->.
  - intros declared ->. by case_decide.
Qed.

Lemma need_check_spec_witness :
  need_check base_kind "BEFORE" {| action := "CLUSTER_SCALE_OUT" |} = true /\
  need_check (Kind "P" "1.0" (PTList ["ANY"])
                (TargetSet [("BEFORE", "CLUSTER_SCALE_OUT")]))
    "BEFORE" {| action := "CLUSTER_SCALE_OUT" |} = true.
Proof.
  split.
  - apply (proj1 (need_check_spec base_kind _ _)). reflexivity.
  - apply (proj2 (need_check_spec _ _ _) [("BEFORE", "CLUSTER_SCALE_OUT")]).
    + reflexivity.
    + simpl. apply list_elem_of_here.
Defined.

(** C10: a [TARGET] declared as an empty collection makes [need_check]
    answer false for every target and action; [need_check] answers true for
    everything only when [TARGET] is undefined or [None]. *)
Theorem need_check_empty_target (k : kind) :
  (TARGET k = TargetSet [] ->
   forall target act, need_check k target act = false) /\
  ((forall target act, need_check k target act = true) <->
   (TARGET k = TargetUndefined \/ TARGET k = TargetNone)).
Proof.
  unfold need_check, getattr_TARGET. split; [| split].
  - intros -> target act. case_decide as Hin; [| done].
    by apply not_elem_of_nil in Hin.
  - intros Hall. destruct (TARGET k) as [| | declared]; [by left | by right |].
    exfalso. pose proof (infinite_is_fresh declared) as Hfresh.
    destruct (fresh declared) as [target name].
    specialize (Hall target {| action := name |}).
    cbn [action] in Hall. by case_decide.
  - by intros [-> | ->].
Qed.

Lemma need_check_empty_target_witness :
  need_check (Kind "P" "1.0" (PTList ["ANY"]) (TargetSet []))
    "BEFORE" {| action := "CLUSTER_SCALE_OUT" |} = false.
Proof.
  apply (proj1 (need_check_empty_target
                  (Kind "P" "1.0" (PTList ["ANY"]) (TargetSet [])))).
  reflexivity.
Defined.

(** ** Construction and rehydration *)

Section construction.
Context `{Environment}.

Lemma construct_ok (c : cls) (k : kind) (nm : value)
    (sp kwargs : gmap string value) (tn ver : string) :
  get_spec_version (VDict sp) = Ok (VStr tn, VStr ver) ->
  __new__ c (VDict sp) = Ok k ->
  construct c nm (VDict sp) kwargs =
    Ok {| class_of := k; name := nm; spec := VDict sp;
          id := default VNone (kwargs !! "id");
          type := default (VStr (tn +:+ "-" +:+ ver)) (kwargs !! "type");
          user := default VNone (kwargs !! "user");
          project := default VNone (kwargs !! "project");
          domain := default VNone (kwargs !! "domain");
          data := default (VDict ∅) (kwargs !! "data");
          created_at := default VNone (kwargs !! "created_at");
          updated_at := default VNone (kwargs !! "updated_at");
          spec_data := VDict sp;
          properties := default (VDict ∅) (sp !! "properties");
          singleton := true |}.
Proof.
  intros Hspec Hnew. unfold construct. rewrite Hnew. cbn [bind].
  unfold __init__. rewrite Hspec. reflexivity.
Qed.

Lemma from_object_ok (c : cls) (k : kind) (r : po.Policy)
    (sp : gmap string value) (tn ver : string) :
  po.spec r = VDict sp ->
  get_spec_version (VDict sp) = Ok (VStr tn, VStr ver) ->
  __new__ c (VDict sp) = Ok k ->
  exists p, _from_object c r = Ok p /\ class_of p = k /\
            rehydrated_from p r.
Proof.
  intros Hsp Hspec Hnew. unfold _from_object. rewrite Hsp.
  rewrite (construct_ok c k _ sp _ tn ver Hspec Hnew).
  eexists. split; [reflexivity |]. split; [reflexivity |].
  unfold rehydrated_from. cbn. rewrite Hsp. by repeat split.
Qed.

Lemma from_object_rehydrated (c : cls) (r : po.Policy) (p : Policy) :
  _from_object c r = Ok p -> rehydrated_from p r.
Proof.
  unfold _from_object, construct, __init__.
  destruct (__new__ c (po.spec r)) as [k|]; [| discriminate]. cbn [bind].
  destruct (get_spec_version (po.spec r)) as [tv|]; [| discriminate].
  cbn [bind]. destruct (join_dash tv.1 tv.2); [| discriminate].
  cbn [bind]. destruct (py_get (po.spec r) "properties" (VDict ∅));
    [| discriminate].
  cbn [bind]. intros [= <-]. unfold rehydrated_from. cbn. by repeat split.
Qed.
End construction.

(** C9: a [type] keyword argument given to the constructor becomes the
    instance's [type], whatever key the spec would give; without one the
    key computed from the spec is used.  Rehydration passes the stored
    record's [type], so the instance carries the stored value. *)
Theorem type_kwarg_takes_precedence `{Environment} (c : cls) (k : kind)
    (nm : value) (sp kwargs : gmap string value) (tn ver : string) :
  get_spec_version (VDict sp) = Ok (VStr tn, VStr ver) ->
  __new__ c (VDict sp) = Ok k ->
  (forall t, kwargs !! "type" = Some t ->
     exists p, construct c nm (VDict sp) kwargs = Ok p /\ type p = t) /\
  (kwargs !! "type" = None ->
     exists p, construct c nm (VDict sp) kwargs = Ok p /\
               type p = VStr (tn +:+ "-" +:+ ver)) /\
  (forall r, po.spec r = VDict sp ->
     exists p, _from_object c r = Ok p /\ type p = po.type r).
Proof.
  intros Hspec Hnew. split; [| split].
  - intros t Ht. rewrite (construct_ok c k nm sp kwargs tn ver Hspec Hnew).
    eexists. split; [reflexivity |]. cbn. by rewrite Ht.
  - intros Ht. rewrite (construct_ok c k nm sp kwargs tn ver Hspec Hnew).
    eexists. split; [reflexivity |]. cbn. by rewrite Ht.
  - intros r Hsp.
    destruct (from_object_ok c k r sp tn ver Hsp Hspec Hnew)
      as (p & Hp & _ & Hfields).
    exists p. split; [done |]. apply Hfields.
Qed.

Lemma type_kwarg_takes_precedence_witness :
  exists p, _from_object PolicyBase stored_record = Ok p /\
            type p = VStr "legacy-0.9".
Proof.
  destruct (type_kwarg_takes_precedence PolicyBase ScalingPolicy (VStr "sp")
              (<["type" := VStr "scaling"]>
               (<["version" := VStr "1.0"]>
               (<["properties" := VDict ∅]> ∅))) ∅ "scaling" "1.0")
    as (_ & _ & Hrecord); [reflexivity | reflexivity |].
  apply (Hrecord stored_record). reflexivity.
Defined.

(** ** Persistence *)

(** C5: [load] without a record at hand raises [PolicyNotFound] when the
    store has nothing under the identifier; whenever it returns an instance,
    the store had a record and every field of the instance comes from it;
    and a record the store does return is handed to [_from_object], which
    yields the instance once the record's spec resolves to a kind. *)
Theorem load_not_found_or_rehydrated `{Environment} `{PolicyStore DB}
    (c : cls) (ctx : context) (policy_id : value) (project_safe : bool)
    (db : DB) :
  (policy_get ctx policy_id project_safe db = Ok None ->
   load c ctx policy_id None project_safe db
     = Raise (PolicyNotFound policy_id)) /\
  (forall p, load c ctx policy_id None project_safe db = Ok p ->
     exists r, policy_get ctx policy_id project_safe db = Ok (Some r) /\
               rehydrated_from p r) /\
  (forall r, policy_get ctx policy_id project_safe db = Ok (Some r) ->
     load c ctx policy_id None project_safe db = _from_object c r) /\
  (forall r k sp tn ver,
     policy_get ctx policy_id project_safe db = Ok (Some r) ->
     po.spec r = VDict sp ->
     get_spec_version (VDict sp) = Ok (VStr tn, VStr ver) ->
     __new__ c (VDict sp) = Ok k ->
     exists p, load c ctx policy_id None project_safe db = Ok p /\
               class_of p = k /\ rehydrated_from p r).
Proof.
  unfold load. repeat split.
  - by intros ->.
  - intros p. destruct (policy_get ctx policy_id project_safe db)
      as [[r|]|]; cbn [bind]; try discriminate.
    intros Hp. exists r. split; [done |].
    by apply (from_object_rehydrated c).
  - by intros r ->.
  - intros r k sp tn ver -> Hsp Hspec Hnew. cbn [bind].
    by apply (from_object_ok c k r sp tn ver).
Qed.

Lemma load_not_found_or_rehydrated_witness :
  load PolicyBase admin_ctx (VStr "policy-404") None true
       (MemDB {[ "policy-7" := stored_record ]} 8)
    = Raise (PolicyNotFound (VStr "policy-404")) /\
  exists p, load PolicyBase admin_ctx (VStr "policy-7") None true
                 (MemDB {[ "policy-7" := stored_record ]} 8) = Ok p /\
            class_of p = ScalingPolicy /\ rehydrated_from p stored_record.
Proof.
  split.
  - apply (proj1 (load_not_found_or_rehydrated PolicyBase admin_ctx
                    (VStr "policy-404") true
                    (MemDB {[ "policy-7" := stored_record ]} 8))).
    reflexivity.
  - destruct (load_not_found_or_rehydrated PolicyBase admin_ctx
                (VStr "policy-7") true
                (MemDB {[ "policy-7" := stored_record ]} 8))
      as (_ & _ & _ & Hfound).
    apply (Hfound stored_record ScalingPolicy
             (<["type" := VStr "scaling"]>
              (<["version" := VStr "1.0"]>
              (<["properties" := VDict ∅]> ∅))) "scaling" "1.0");
      reflexivity.
Defined.

Section store.
Context `{PolicyStore DB}.

Lemma is_not_none_false (v : value) : is_not_none v = false <-> v = VNone.
Proof. by destruct v. Qed.

Lemma is_not_none_true (v : value) : is_not_none v = true <-> v <> VNone.
Proof. by destruct v. Qed.

Lemma store_fresh (utcnow : Z) (ctx : context) (self : Policy) (db : DB)
    (r : po.Policy) (db' : DB) :
  id self = VNone ->
  policy_create ctx (<["created_at" := VTime utcnow]> (store_values self))
    db = (Ok r, db') ->
  store utcnow ctx self db
  = (Ok (po.id r),
     set_id (po.id r) (set_created_at (VTime utcnow) self), db').
Proof.
  intros Hid Hcreate. unfold store.
  rewrite (proj2 (is_not_none_false _) Hid). by rewrite Hcreate.
Qed.

Lemma store_existing (utcnow : Z) (ctx : context) (self : Policy) (db : DB)
    (r : po.Policy) (db' : DB) :
  id self <> VNone ->
  policy_update ctx (id self)
    (<["updated_at" := VTime utcnow]> (store_values self)) db
    = (Ok r, db') ->
  store utcnow ctx self db
  = (Ok (id self), set_updated_at (VTime utcnow) self, db').
Proof.
  intros Hid Hupdate. unfold store.
  rewrite (proj2 (is_not_none_true _) Hid). cbn [set_updated_at id].
  by rewrite Hupdate.
Qed.
End store.

(** C4: on an instance without an id, [store] stamps [created_at], has the
    store create a record from the instance's values, takes the record's id
    as the instance's id and returns it; on an instance with an id it stamps
    [updated_at], has the store update the record of that id, keeps the id
    and returns it.  A second [store] after the first therefore goes through
    the update and leaves the id as first assigned. *)
Theorem store_create_or_update `{PolicyStore DB} (utcnow : Z)
    (ctx : context) (self : Policy) (db : DB) :
  (id self = VNone ->
   forall r db',
     policy_create ctx
       (<["created_at" := VTime utcnow]> (store_values self)) db
       = (Ok r, db') ->
     exists self',
       store utcnow ctx self db = (Ok (po.id r), self', db') /\
       id self' = po.id r /\ created_at self' = VTime utcnow /\
       updated_at self' = updated_at self /\
       (po.id r <> VNone ->
        forall later r2 db2,
          policy_update ctx (po.id r)
            (<["updated_at" := VTime later]> (store_values self')) db'
            = (Ok r2, db2) ->
          exists self'',
            store later ctx self' db' = (Ok (po.id r), self'', db2) /\
            id self'' = po.id r /\ created_at self'' = VTime utcnow /\
            updated_at self'' = VTime later)) /\
  (id self <> VNone ->
   forall r db',
     policy_update ctx (id self)
       (<["updated_at" := VTime utcnow]> (store_values self)) db
       = (Ok r, db') ->
     exists self',
       store utcnow ctx self db = (Ok (id self), self', db') /\
       id self' = id self /\ updated_at self' = VTime utcnow /\
       created_at self' = created_at self).
Proof.
  split.
  - intros Hid r db' Hcreate.
    exists (set_id (po.id r) (set_created_at (VTime utcnow) self)).
    split; [by apply store_fresh |]. repeat split.
    intros Hset later r2 db2 Hupdate.
    set (self1 := set_id (po.id r) (set_created_at (VTime utcnow) self)) in *.
    exists (set_updated_at (VTime later) self1).
    split; [| by repeat split].
    exact (store_existing later ctx self1 db' r2 db2 Hset Hupdate).
  - intros Hid r db' Hupdate.
    exists (set_updated_at (VTime utcnow) self).
    split; [by apply (store_existing utcnow ctx self db r db') |].
    by repeat split.
Qed.

Lemma store_create_or_update_witness :
  (exists self' db',
     store 100 admin_ctx fresh_policy (MemDB ∅ 0)
       = (Ok (VStr "policy-0"), self', db') /\
     id self' = VStr "policy-0" /\ created_at self' = VTime 100) /\
  (exists self' db',
     store 200 admin_ctx stored_policy
           (MemDB {[ "policy-7" := stored_record ]} 8)
       = (Ok (VStr "policy-7"), self', db') /\
     id self' = VStr "policy-7" /\ updated_at self' = VTime 200).
Proof.
  split.
  - edestruct (proj1 (store_create_or_update 100 admin_ctx fresh_policy
                        (MemDB ∅ 0)))
      as (self' & Hstore & Hid & Hcreated & _);
      [reflexivity | reflexivity |].
    eexists self', _. split; [exact Hstore |]. by split.
  - edestruct (proj2 (store_create_or_update 200 admin_ctx stored_policy
                        (MemDB {[ "policy-7" := stored_record ]} 8)))
      as (self' & Hstore & Hid & Hupdated & _);
      [discriminate | reflexivity |].
    eexists self', _. split; [exact Hstore |]. by split.
Defined.

(** ** Trust-based connection parameters *)

Lemma py_getitem_not_trust (container : value) (key : string) (t : value) :
  py_getitem container key <> Raise (TrustNotFound t).
Proof.
  destruct container; simpl; try discriminate.
  by destruct (d !! key).
Qed.

(** C8: with the credential store answering the lookup for the cluster's
    owner pair, [_build_conn_params] raises [TrustNotFound] exactly when
    the answer is "no record", naming the cluster's user; on a record whose
    [cred['openstack']['trust']] is present it returns the four service
    credentials together with that trust as [trust_id]. *)
Theorem build_conn_params_trust `{CredentialStore} (k : kind)
    (cluster : Cluster) (found : option Credential) :
  credential_get get_current (cluster_user cluster) (cluster_project cluster)
    = Ok found ->
  (raises_TrustNotFound (_build_conn_params k cluster) <-> found = None) /\
  (found = None ->
   _build_conn_params k cluster
     = Raise (TrustNotFound (cluster_user cluster))) /\
  (forall c openstack trust,
     found = Some c ->
     py_getitem (cred c) "openstack" = Ok openstack ->
     py_getitem openstack "trust" = Ok trust ->
     exists params : gmap string value,
       _build_conn_params k cluster = Ok (VDict params) /\
       params !! "username"
         = Some (default VNone (get_service_context !! "username")) /\
       params !! "password"
         = Some (default VNone (get_service_context !! "password")) /\
       params !! "auth_url"
         = Some (default VNone (get_service_context !! "auth_url")) /\
       params !! "user_domain_name"
         = Some (default VNone (get_service_context !! "user_domain_name")) /\
       params !! "trust_id" = Some trust).
Proof.
  intros Hget. unfold _build_conn_params. cbn [py_get bind].
  rewrite Hget. cbn [bind]. split; [split |split].
  - intros [t Hraise]. destruct found as [c|]; [exfalso | done].
    destruct (py_getitem (cred c) "openstack") as [o|e] eqn:Ho;
      cbn [bind] in Hraise.
    + destruct (py_getitem o "trust") as [tr|e] eqn:Ht;
        cbn [bind] in Hraise; [discriminate |].
      apply (py_getitem_not_trust o "trust" t). congruence.
    + apply (py_getitem_not_trust (cred c) "openstack" t). congruence.
  - intros ->. by eexists.
  - by intros ->.
  - intros c openstack trust -> Hopenstack Htrust.
    rewrite Hopenstack. cbn [bind]. rewrite Htrust. cbn [bind].
    eexists. split; [reflexivity |]. by simplify_map_eq.
Qed.

Lemma build_conn_params_trust_witness :
  _build_conn_params ScalingPolicy
    {| rt := ∅; cluster_user := VStr "bob"; cluster_project := VStr "p1" |}
    = Raise (TrustNotFound (VStr "bob")) /\
  exists params : gmap string value,
    _build_conn_params ScalingPolicy (cluster_of "server")
      = Ok (VDict params) /\
    params !! "username" = Some (VStr "senlin") /\
    params !! "trust_id" = Some (VStr "t-42").
Proof.
  split.
  - edestruct (build_conn_params_trust ScalingPolicy
                 {| rt := ∅; cluster_user := VStr "bob";
                    cluster_project := VStr "p1" |})
      as (_ & Hnone & _); [reflexivity |].
    apply Hnone. reflexivity.
  - edestruct (build_conn_params_trust ScalingPolicy (cluster_of "server"))
      as (_ & _ & Hsome); [reflexivity |].
    edestruct Hsome as (params & Hret & Huser & _ & _ & _ & Htrust);
      [reflexivity | reflexivity | reflexivity |].
    exists params. split; [exact Hret |]. split; [exact Huser | exact Htrust].
Defined.

(** ** Worked cases *)

Example build_policy_data_scaling :
  _build_policy_data ScalingPolicy (VDict {[ "cooldown_until" := VInt 120 ]})
  = VDict {[ "ScalingPolicy" :=
       VDict (<["version" := VStr "1.0"]>
         (<["data" := VDict {[ "cooldown_until" := VInt 120 ]}]> ∅)) ]}.
Proof. reflexivity. Qed.

Example extract_stale_version :
  _extract_policy_data (Kind "ScalingPolicy" "2.0" (PTList ["server"])
                          TargetUndefined)
    (_build_policy_data ScalingPolicy (VInt 1))
  = Ok VNone.
Proof. reflexivity. Qed.

Example extract_entry_not_a_mapping :
  _extract_policy_data ScalingPolicy (VDict {[ "ScalingPolicy" := VNone ]})
  = Raise TypeError.
Proof. reflexivity. Qed.

Example attach_scaling_server :
  attach ScalingPolicy (cluster_of "server") = Ok (true, VNone).
Proof. reflexivity. Qed.

Example attach_base_default_substring :
  attach base_kind (cluster_of "AN") = Ok (true, VNone).
Proof. reflexivity. Qed.

Example attach_without_profile :
  attach ScalingPolicy
    {| rt := ∅; cluster_user := VNone; cluster_project := VNone |}
  = Raise (KeyError "profile").
Proof. reflexivity. Qed.

Example construct_computes_type :
  type <$> (match construct PolicyBase (VStr "sp") scaling_spec ∅ with
            | Ok p => Some p
            | Raise _ => None
            end)
  = Some (VStr "scaling-1.0").
Proof. reflexivity. Qed.

Example construct_unknown_type :
  construct PolicyBase (VStr "x")
    (VDict (<["type" := VStr "health"]> (<["version" := VStr "1.0"]> ∅))) ∅
  = Raise (PolicyTypeNotFound "health-1.0").
Proof. reflexivity. Qed.

Example store_update_of_missing_record :
  (store 5 admin_ctx stored_policy (MemDB ∅ 0)).1.1
  = Raise (PolicyNotFound (VStr "policy-7")).
Proof. reflexivity. Qed.

(** * Further properties of the code *)

(** ** Policy data codec, beyond the round trip *)

Lemma extract_present_other (k : kind) (envelope : gmap string value)
    (e : value) :
  envelope !! clsname k = Some e ->
  (forall entry : gmap string value, e <> VDict entry) ->
  forall v, _extract_policy_data k (VDict envelope) = Ok v -> v = VNone.
Proof.
  intros Hk Hshape v. unfold _extract_policy_data.
  rewrite (py_in_dict _ _ _ Hk). cbn [bind negb py_get]. rewrite Hk.
  cbn [default from_option Datatypes.id].
  destruct e as [| b | z | s | t | l | entry]; cbn [py_in bind];
    try discriminate.
  - destruct (str_contains s "version"); cbn [negb py_getitem bind];
      [discriminate | by intros [= <-]].
  - destruct (existsb _ l); cbn [negb py_getitem bind];
      [discriminate | by intros [= <-]].
  - by destruct (Hshape entry).
Qed.

(** X1: an envelope built by one kind is stale or foreign to a kind with
    another class name or another [VERSION]: decoding gives [None], no
    error. *)
Theorem extract_build_foreign (k k' : kind) (payload : value) :
  clsname k' <> clsname k \/ VERSION k' <> VERSION k ->
  _extract_policy_data k' (_build_policy_data k payload) = Ok VNone.
Proof.
  intros Hdiff. unfold _build_policy_data.
  destruct (decide (clsname k' = clsname k)) as [Hname | Hname].
  - rewrite (extract_present k' _
               (<["version" := VStr (VERSION k)]> (<["data" := payload]> ∅)))
      by (rewrite Hname; apply lookup_singleton_eq).
    rewrite lookup_insert_eq.
    destruct (py_eq_str (VStr (VERSION k)) (VERSION k')) eqn:Heq; [| done].
    apply py_eq_str_true in Heq. destruct Hdiff; congruence.
  - apply extract_absent. by apply lookup_singleton_ne.
Qed.

Lemma extract_build_foreign_witness :
  _extract_policy_data
    (Kind "ScalingPolicy" "2.0" (PTList ["server"]) TargetUndefined)
    (_build_policy_data ScalingPolicy (VInt 1)) = Ok VNone.
Proof.
  apply (extract_build_foreign ScalingPolicy
           (Kind "ScalingPolicy" "2.0" (PTList ["server"]) TargetUndefined)).
  right. discriminate.
Defined.

(** X2: what a kind reads from a shared envelope does not depend on the
    entries of other kinds: writing or removing an entry under another key
    leaves the kind's result as it was. *)
Theorem extract_ignores_other_entries (k : kind)
    (envelope : gmap string value) (key : string) (e : value) :
  key <> clsname k ->
  _extract_policy_data k (VDict (<[key := e]> envelope))
    = _extract_policy_data k (VDict envelope) /\
  _extract_policy_data k (VDict (base.delete key envelope))
    = _extract_policy_data k (VDict envelope).
Proof.
  intros Hkey. unfold _extract_policy_data. cbn [py_in py_get bind].
  by rewrite lookup_insert_ne, lookup_delete_ne.
Qed.

Lemma extract_ignores_other_entries_witness :
  _extract_policy_data ScalingPolicy
    (VDict (<["HealthPolicy" := VInt 3]>
              {[ "ScalingPolicy" :=
                   VDict (<["version" := VStr "1.0"]>
                            (<["data" := VInt 7]> ∅)) ]}))
  = Ok (VInt 7).
Proof.
  rewrite (proj1 (extract_ignores_other_entries ScalingPolicy
                    {[ "ScalingPolicy" :=
                         VDict (<["version" := VStr "1.0"]>
                                  (<["data" := VInt 7]> ∅)) ]}
                    "HealthPolicy" (VInt 3) ltac:(discriminate))).
  reflexivity.
Defined.

(** X3: a payload other than [None] comes out only of a dict that holds,
    under the kind's class name, a dict entry tagged with exactly the kind's
    [VERSION], and it is that entry's [data]. *)
Theorem extract_sound (k : kind) (policy_data v : value) :
  _extract_policy_data k policy_data = Ok v ->
  v <> VNone ->
  exists envelope entry : gmap string value,
    policy_data = VDict envelope /\
    envelope !! clsname k = Some (VDict entry) /\
    entry !! "version" = Some (VStr (VERSION k)) /\
    entry !! "data" = Some v.
Proof.
  intros Hext Hv.
  destruct policy_data as [| b | z | s | t | l | envelope];
    try discriminate.
  - unfold _extract_policy_data in Hext. cbn [py_in bind] in Hext.
    destruct (str_contains s (clsname k)); cbn [negb py_get bind] in Hext;
      [discriminate | congruence].
  - unfold _extract_policy_data in Hext. cbn [py_in bind] in Hext.
    destruct (existsb _ l); cbn [negb py_get bind] in Hext;
      [discriminate | congruence].
  - destruct (envelope !! clsname k) as [e|] eqn:Hk.
    + destruct e as [| b | z | s | t | l | entry];
        try (exfalso; apply Hv;
             apply (extract_present_other k envelope _ Hk);
             [discriminate | exact Hext]).
      rewrite (extract_present k envelope entry Hk) in Hext.
      exists envelope, entry. split; [done |]. split; [done |].
      destruct (entry !! "version") as [ver|]; [| congruence].
      destruct (py_eq_str ver (VERSION k)) eqn:Heq; [| congruence].
      apply py_eq_str_true in Heq. subst ver. split; [done |].
      destruct (entry !! "data"); cbn in Hext; congruence.
    + rewrite (extract_absent k envelope Hk) in Hext. congruence.
Qed.

Lemma extract_sound_witness :
  exists envelope entry : gmap string value,
    _build_policy_data ScalingPolicy (VInt 7) = VDict envelope /\
    envelope !! "ScalingPolicy" = Some (VDict entry) /\
    entry !! "version" = Some (VStr "1.0") /\
    entry !! "data" = Some (VInt 7).
Proof.
  apply (extract_sound ScalingPolicy
           (_build_policy_data ScalingPolicy (VInt 7)) (VInt 7)).
  - reflexivity.
  - discriminate.
Defined.



(** X5: policy data that is no container at all ([None], a bool, a number,
    a time stamp) makes the decoder raise [TypeError] at its first
    membership test. *)
Theorem extract_non_container (k : kind) (policy_data : value) :
  (forall d, policy_data <> VDict d) ->
  (forall l, policy_data <> VList l) ->
  (forall s, policy_data <> VStr s) ->
  _extract_policy_data k policy_data = Raise TypeError.
Proof.
  intros Hd Hl Hs.
  destruct policy_data as [| b | z | s | t | l | d]; try reflexivity.
  - by destruct (Hs s).
  - by destruct (Hl l).
  - by destruct (Hd d).
Qed.

Lemma extract_non_container_witness :
  _extract_policy_data ScalingPolicy VNone = Raise TypeError.
Proof.
  apply (extract_non_container ScalingPolicy VNone); discriminate.
Defined.

(** X6: the envelope determines what went into it: two envelopes are equal
    only if class name, [VERSION] and payload are. *)
Theorem build_policy_data_inj (k k' : kind) (payload payload' : value) :
  _build_policy_data k payload = _build_policy_data k' payload' ->
  clsname k = clsname k' /\ VERSION k = VERSION k' /\ payload = payload'.
Proof.
  unfold _build_policy_data. intros Hmaps.
  apply (f_equal (fun v => match v with VDict d => d | _ => ∅ end)) in Hmaps.
  assert (Hlook :
    ({[ clsname k' :=
          VDict (<["version" := VStr (VERSION k')]>
                   (<["data" := payload']> ∅)) ]} : gmap string value)
      !! clsname k
    = Some (VDict (<["version" := VStr (VERSION k)]>
                     (<["data" := payload]> ∅)))).
  { rewrite <- Hmaps. apply lookup_singleton_eq. }
  apply lookup_singleton_Some in Hlook as [Hname Hentry].
  apply (f_equal (fun v => match v with VDict d => d | _ => ∅ end)) in Hentry.
  split; [done |].
  assert (Hver : (<["version" := VStr (VERSION k')]>
                    (<["data" := payload']> (∅ : gmap string value)))
                   !! "version" = Some (VStr (VERSION k))).
  { rewrite Hentry. apply lookup_insert_eq. }
  assert (Hdata : (<["version" := VStr (VERSION k')]>
                     (<["data" := payload']> (∅ : gmap string value)))
                    !! "data" = Some payload).
  { rewrite Hentry. rewrite lookup_insert_ne by done.
    apply lookup_insert_eq. }
  rewrite lookup_insert_eq in Hver.
  rewrite lookup_insert_ne, lookup_insert_eq in Hdata by done.
  split; congruence.
Qed.

Lemma build_policy_data_inj_witness :
  clsname ScalingPolicy = "ScalingPolicy" /\
  VERSION ScalingPolicy = "1.0" /\ VInt 7 = VInt 7.
Proof.
  apply (build_policy_data_inj ScalingPolicy
           (Kind "ScalingPolicy" "1.0" (PTList ["ANY"]) TargetNone)
           (VInt 7) (VInt 7)).
  reflexivity.
Defined.

(** ** The attach guard, case by case *)

Lemma append_nil_l (s : string) : "" +:+ s = s.
Proof. reflexivity. Qed.

Lemma append_cons (a : Ascii.ascii) (s t : string) :
  String a s +:+ t = String a (s +:+ t).
Proof. reflexivity. Qed.

Lemma prefix_spec (n h : string) :
  String.prefix n h = true <-> exists post, h = n +:+ post.
Proof.
  revert h. induction n as [| a n IH]; intros h.
  - split; [intros _; by exists h | by destruct h].
  - destruct h as [| b h]; cbn [String.prefix].
    + split; [done | intros [post Hpost]].
      rewrite append_cons in Hpost. discriminate.
    + destruct (Ascii.ascii_dec a b) as [-> | Hab].
      * rewrite IH. split; intros [post Hpost]; exists post.
        -- rewrite append_cons. congruence.
        -- rewrite append_cons in Hpost. congruence.
      * split; [done | intros [post Hpost]].
        rewrite append_cons in Hpost. congruence.
Qed.

Lemma str_contains_spec (h n : string) :
  str_contains h n = true <-> exists pre post, h = pre +:+ n +:+ post.
Proof.
  induction h as [| a h IH]; cbn [str_contains];
    destruct (String.prefix n _) eqn:Hpre.
  - split; [intros _ | done]. apply prefix_spec in Hpre as [post Hpost].
    by exists "", post.
  - split; [done |]. intros (pre & post & Heq).
    destruct pre as [| b pre]; [| rewrite append_cons in Heq; discriminate].
    rewrite append_nil_l in Heq.
    assert (String.prefix n "" = true) as Hyes
      by (apply prefix_spec; by exists post).
    congruence.
  - split; [intros _ | done]. apply prefix_spec in Hpre as [post Hpost].
    by exists "", post.
  - rewrite IH. split.
    + intros (pre & post & ->). by exists (String a pre), post.
    + intros (pre & post & Heq). destruct pre as [| b pre].
      * rewrite append_nil_l in Heq.
        assert (String.prefix n (String a h) = true) as Hyes
          by (apply prefix_spec; by exists post).
        congruence.
      * rewrite append_cons in Heq. injection Heq as _ ->.
        by exists pre, post.
Qed.



(** X8: when [PROFILE_TYPE] is a [str], as the base-class default is, the
    guard lets a cluster through exactly when its profile type occurs as a
    piece of that text. *)
Theorem attach_str_decl_substring (k : kind) (cluster : Cluster)
    (s : string) (p : Profile.t) :
  PROFILE_TYPE k = PTStr s ->
  rt cluster !! "profile" = Some p ->
  (attach k cluster = Ok (true, VNone) <->
   exists pre post, s = pre +:+ Profile.type p +:+ post).
Proof.
  intros Hdecl Hrt. unfold attach. rewrite Hdecl, Hrt.
  cbn [profile_type_is_any profile_type_in].
  rewrite <- str_contains_spec.
  by destruct (str_contains s (Profile.type p)).
Qed.

Lemma attach_str_decl_substring_witness :
  attach base_kind (cluster_of "NY") = Ok (true, VNone).
Proof.
  apply (proj2 (attach_str_decl_substring base_kind (cluster_of "NY") "ANY"
                  (Profile.Make "NY") eq_refl eq_refl)).
  by exists "A", "".
Defined.

(** X9: a kind attaches to every cluster whatsoever exactly when its
    [PROFILE_TYPE] is the list [['ANY']]; any other declaration fails on a
    cluster whose runtime data has no profile. *)
Theorem attach_universal_iff (k : kind) :
  (forall cluster, attach k cluster = Ok (true, VNone)) <->
  PROFILE_TYPE k = PTList ["ANY"].
Proof.
  split; [| intros Hany cluster; by apply attach_any_list].
  intros Hall.
  specialize (Hall {| rt := ∅; cluster_user := VNone;
                      cluster_project := VNone |}).
  unfold attach in Hall. destruct (PROFILE_TYPE k) as [s | l];
    cbn [profile_type_is_any rt] in Hall.
  - by rewrite lookup_empty in Hall.
  - case_bool_decide as Hany; [by subst l |].
    by rewrite lookup_empty in Hall.
Qed.

(** X10: when [PROFILE_TYPE] is a list, the guard lets a cluster through
    exactly when the list is [['ANY']] or holds the cluster's profile type;
    ['ANY'] beside other entries has no special meaning. *)
Theorem attach_list_decl_iff (k : kind) (cluster : Cluster)
    (allowed : list string) (p : Profile.t) :
  PROFILE_TYPE k = PTList allowed ->
  rt cluster !! "profile" = Some p ->
  (attach k cluster = Ok (true, VNone) <->
   allowed = ["ANY"] \/ Profile.type p ∈ allowed).
Proof.
  intros Hdecl Hrt. unfold attach. rewrite Hdecl, Hrt.
  cbn [profile_type_is_any profile_type_in].
  case_bool_decide as Hany; [by split; [left |] |].
  case_bool_decide as Hin; cbn [negb].
  - by split; [right |].
  - split; [done | by intros [? | ?]].
Qed.

Lemma attach_list_decl_iff_witness :
  attach (Kind "P" "1.0" (PTList ["ANY"; "server"]) TargetNone)
    (cluster_of "container")
  <> Ok (true, VNone).
Proof.
  intros Hyes.
  apply (proj1 (attach_list_decl_iff
                  (Kind "P" "1.0" (PTList ["ANY"; "server"]) TargetNone)
                  (cluster_of "container") ["ANY"; "server"]
                  (Profile.Make "container") eq_refl eq_refl)) in Hyes.
  destruct Hyes as [Hany | Hin]; [discriminate |].
  repeat (apply elem_of_cons in Hin as [Hin | Hin]; [discriminate |]).
  by apply not_elem_of_nil in Hin.
Defined.

(** X11: whatever [attach] returns has one of two shapes: [(True, None)],
    or [False] with the message naming the profile type of the cluster's
    profile. *)
Theorem attach_outcome_shape (k : kind) (cluster : Cluster) (ok : bool)
    (msg : value) :
  attach k cluster = Ok (ok, msg) ->
  (ok = true /\ msg = VNone) \/
  (ok = false /\
   exists p, rt cluster !! "profile" = Some p /\
             msg = VStr ("Policy not applicable on profile type: "
                         +:+ Profile.type p)).
Proof.
  unfold attach. destruct (profile_type_is_any (PROFILE_TYPE k)).
  - intros [= <- <-]. by left.
  - destruct (rt cluster !! "profile") as [p|]; [| discriminate].
    destruct (negb (profile_type_in (Profile.type p) (PROFILE_TYPE k))).
    + intros [= <- <-]. right. split; [done |]. by exists p.
    + intros [= <- <-]. by left.
Qed.

Lemma attach_outcome_shape_witness :
  (false = true /\
   VStr "Policy not applicable on profile type: container" = VNone) \/
  (false = false /\
   exists p, rt (cluster_of "container") !! "profile" = Some p /\
             VStr "Policy not applicable on profile type: container"
             = VStr ("Policy not applicable on profile type: "
                     +:+ Profile.type p)).
Proof.
  apply (attach_outcome_shape ScalingPolicy (cluster_of "container")).
  reflexivity.
Defined.

(** ** Construction, case by case *)

Section construction_more.
Context `{Environment}.

Lemma construct_inv (c : cls) (nm spec0 : value)
    (kwargs : gmap string value) (p : Policy) :
  construct c nm spec0 kwargs = Ok p ->
  name p = nm /\ spec p = spec0 /\ spec_data p = spec0 /\
  singleton p = true /\
  id p = default VNone (kwargs !! "id") /\
  user p = default VNone (kwargs !! "user") /\
  project p = default VNone (kwargs !! "project") /\
  domain p = default VNone (kwargs !! "domain") /\
  data p = default (VDict ∅) (kwargs !! "data") /\
  created_at p = default VNone (kwargs !! "created_at") /\
  updated_at p = default VNone (kwargs !! "updated_at").
Proof.
  unfold construct, __init__.
  destruct (__new__ c spec0) as [k|]; [| discriminate]. cbn [bind].
  destruct (get_spec_version spec0) as [tv|]; [| discriminate].
  cbn [bind]. destruct (join_dash tv.1 tv.2); [| discriminate].
  cbn [bind]. destruct (py_get spec0 "properties" (VDict ∅));
    [| discriminate].
  cbn [bind]. intros [= <-]. by repeat split.
Qed.

Lemma new_concrete (k : kind) (sp : gmap string value) (tn ver : string) :
  get_spec_version (VDict sp) = Ok (VStr tn, VStr ver) ->
  __new__ (Concrete k) (VDict sp) = Ok k.
Proof. intros Hspec. unfold __new__. by rewrite Hspec. Qed.
End construction_more.

(** X12: called on a concrete class, the constructor makes an instance of
    that class without asking the type registry, so it succeeds whether or
    not the spec's type is registered. *)
Theorem construct_concrete_class `{Environment} (k : kind) (nm : value)
    (sp kwargs : gmap string value) (tn ver : string) :
  get_spec_version (VDict sp) = Ok (VStr tn, VStr ver) ->
  exists p, construct (Concrete k) nm (VDict sp) kwargs = Ok p /\
            class_of p = k /\ name p = nm /\ spec p = VDict sp.
Proof.
  intros Hspec.
  rewrite (construct_ok (Concrete k) k nm sp kwargs tn ver Hspec
             (new_concrete k sp tn ver Hspec)).
  eexists. by repeat split.
Qed.

Lemma construct_concrete_class_witness :
  exists p,
    @construct empty_registry (Concrete ScalingPolicy) (VStr "sp")
      scaling_spec ∅ = Ok p /\
    class_of p = ScalingPolicy /\ name p = VStr "sp" /\
    spec p = scaling_spec.
Proof.
  apply (@construct_concrete_class empty_registry ScalingPolicy (VStr "sp")
           (<["type" := VStr "scaling"]>
            (<["version" := VStr "1.0"]>
            (<["properties" := VDict ∅]> ∅))) ∅ "scaling" "1.0").
  reflexivity.
Defined.

(** X13: the constructor lets the failure of its collaborators through:
    what [get_spec_version] raises on the spec, and, when called on [Policy]
    itself, what the registry raises for the computed ["type-version"] key.
    No instance is made. *)
Theorem construct_propagates_errors `{Environment} (c : cls)
    (nm spec0 : value) (kwargs : gmap string value) (e : exn) :
  (get_spec_version spec0 = Raise e ->
   construct c nm spec0 kwargs = Raise e) /\
  (forall tn ver,
     get_spec_version spec0 = Ok (VStr tn, VStr ver) ->
     get_policy (tn +:+ "-" +:+ ver) = Raise e ->
     construct PolicyBase nm spec0 kwargs = Raise e).
Proof.
  unfold construct, __new__. split.
  - by intros ->.
  - intros tn ver -> Hreg. cbn [bind join_dash fst snd]. by rewrite Hreg.
Qed.

Lemma construct_propagates_errors_witness :
  construct PolicyBase (VStr "x") (VDict ∅) ∅ = Raise SpecValidationFailed /\
  construct PolicyBase (VStr "x")
    (VDict (<["type" := VStr "health"]> (<["version" := VStr "1.0"]> ∅))) ∅
  = Raise (PolicyTypeNotFound "health-1.0").
Proof.
  split.
  - apply (proj1 (construct_propagates_errors PolicyBase (VStr "x")
                    (VDict ∅) ∅ SpecValidationFailed)).
    reflexivity.
  - apply (proj2 (construct_propagates_errors PolicyBase (VStr "x")
                    (VDict (<["type" := VStr "health"]>
                              (<["version" := VStr "1.0"]> ∅))) ∅
                    (PolicyTypeNotFound "health-1.0")) "health" "1.0");
      reflexivity.
Defined.

(** X14: constructed without keyword arguments, an instance has no id, no
    owner and no time stamps, empty data, the type key computed from the
    spec, and as properties those of the spec, or an empty mapping when the
    spec has none. *)
Theorem construct_fresh_defaults `{Environment} (c : cls) (k : kind)
    (nm : value) (sp : gmap string value) (tn ver : string) :
  get_spec_version (VDict sp) = Ok (VStr tn, VStr ver) ->
  __new__ c (VDict sp) = Ok k ->
  exists p, construct c nm (VDict sp) ∅ = Ok p /\
    id p = VNone /\ type p = VStr (tn +:+ "-" +:+ ver) /\
    user p = VNone /\ project p = VNone /\ domain p = VNone /\
    data p = VDict ∅ /\ created_at p = VNone /\ updated_at p = VNone /\
    properties p = default (VDict ∅) (sp !! "properties") /\
    singleton p = true.
Proof.
  intros Hspec Hnew. rewrite (construct_ok c k nm sp ∅ tn ver Hspec Hnew).
  eexists. by repeat split.
Qed.

Lemma construct_fresh_defaults_witness :
  exists p,
    construct PolicyBase (VStr "x")
      (VDict (<["type" := VStr "scaling"]> (<["version" := VStr "1.0"]> ∅)))
      ∅ = Ok p /\
    id p = VNone /\ type p = VStr "scaling-1.0" /\
    user p = VNone /\ project p = VNone /\ domain p = VNone /\
    data p = VDict ∅ /\ created_at p = VNone /\ updated_at p = VNone /\
    properties p = VDict ∅ /\ singleton p = true.
Proof.
  pose proof (construct_fresh_defaults PolicyBase ScalingPolicy (VStr "x")
                (<["type" := VStr "scaling"]> (<["version" := VStr "1.0"]> ∅))
                "scaling" "1.0") as Hfresh.
  exact (Hfresh ltac:(reflexivity) ltac:(reflexivity)).
Defined.



(** ** Storing, beyond the two branches *)

(** X16: whatever the store answers, [store] touches nothing of the
    instance but its id and its two time stamps. *)
Theorem store_preserves_fields `{PolicyStore DB} (utcnow : Z)
    (ctx : context) (self : Policy) (db : DB) :
  let self' := (store utcnow ctx self db).1.2 in
  class_of self' = class_of self /\ name self' = name self /\
  spec self' = spec self /\ type self' = type self /\
  user self' = user self /\ project self' = project self /\
  domain self' = domain self /\ data self' = data self /\
  spec_data self' = spec_data self /\ properties self' = properties self /\
  singleton self' = singleton self.
Proof.
  unfold store. destruct (is_not_none (id self)).
  - destruct (policy_update _ _ _ _) as [[r | e] db']; by repeat split.
  - destruct (policy_create _ _ _) as [[r | e] db']; by repeat split.
Qed.

(** X17: when the store raises, [store] raises the same; the instance has
    its time stamp set all the same, and its id is what it was: still unset
    after a failed create. *)
Theorem store_failure_keeps_stamp `{PolicyStore DB} (utcnow : Z)
    (ctx : context) (self : Policy) (db db' : DB) (e : exn) :
  (id self = VNone ->
   policy_create ctx
     (<["created_at" := VTime utcnow]> (store_values self)) db
     = (Raise e, db') ->
   exists self',
     store utcnow ctx self db = (Raise e, self', db') /\
     id self' = VNone /\ created_at self' = VTime utcnow) /\
  (id self <> VNone ->
   policy_update ctx (id self)
     (<["updated_at" := VTime utcnow]> (store_values self)) db
     = (Raise e, db') ->
   exists self',
     store utcnow ctx self db = (Raise e, self', db') /\
     id self' = id self /\ updated_at self' = VTime utcnow).
Proof.
  unfold store. split.
  - intros Hid Hcreate. rewrite (proj2 (is_not_none_false _) Hid).
    rewrite Hcreate. eexists. by repeat split.
  - intros Hid Hupdate. rewrite (proj2 (is_not_none_true _) Hid).
    cbn [set_updated_at id]. rewrite Hupdate. eexists. by repeat split.
Qed.

Lemma store_failure_keeps_stamp_witness :
  exists self',
    store 5 admin_ctx stored_policy (MemDB ∅ 0)
      = (Raise (PolicyNotFound (VStr "policy-7")), self', MemDB ∅ 0) /\
    id self' = VStr "policy-7" /\ updated_at self' = VTime 5.
Proof.
  apply (proj2 (store_failure_keeps_stamp 5 admin_ctx stored_policy
                  (MemDB ∅ 0) (MemDB ∅ 0)
                  (PolicyNotFound (VStr "policy-7")))).
  - discriminate.
  - reflexivity.
Defined.

(** X18: storing an instance rehydrated from a record whose id is set goes
    to the store as an update of that very id, carrying back the record's
    own name, type, owner, spec and data together with the new
    [updated_at]; the record's id is what [store] returns. *)
Theorem rehydrated_store_updates `{Environment} `{PolicyStore DB} (c : cls)
    (r : po.Policy) (p : Policy) (utcnow : Z) (ctx : context) (db : DB)
    (r' : po.Policy) (db' : DB) :
  _from_object c r = Ok p ->
  po.id r <> VNone ->
  policy_update ctx (po.id r)
    (<["updated_at" := VTime utcnow]>
     (<["name" := po.name r]>
     (<["type" := po.type r]>
     (<["user" := po.user r]>
     (<["project" := po.project r]>
     (<["domain" := po.domain r]>
     (<["spec" := po.spec r]>
     (<["data" := po.data r]> ∅)))))))) db = (Ok r', db') ->
  exists p',
    store utcnow ctx p db = (Ok (po.id r), p', db') /\
    id p' = po.id r /\ created_at p' = po.created_at r /\
    updated_at p' = VTime utcnow.
Proof.
  intros Hp Hid Hupdate.
  destruct (from_object_rehydrated c r p Hp)
    as (Hi & Hn & Ht & Hs & Hu & Hpr & Hd & Hda & Hc & _).
  assert (id p <> VNone) as Hid' by congruence.
  assert (policy_update ctx (id p)
            (<["updated_at" := VTime utcnow]> (store_values p)) db
          = (Ok r', db')) as Hupdate'.
  { unfold store_values. by rewrite Hi, Hn, Ht, Hs, Hu, Hpr, Hd, Hda. }
  rewrite (store_existing utcnow ctx p db r' db' Hid' Hupdate'), Hi.
  eexists. split; [reflexivity |]. by repeat split.
Qed.

Lemma rehydrated_store_updates_witness :
  exists p',
    store 200 admin_ctx stored_policy
          (MemDB {[ "policy-7" := stored_record ]} 8)
      = (Ok (VStr "policy-7"), p',
         MemDB {[ "policy-7" :=
                    po.Make (VStr "policy-7") (VStr "sp") (VStr "legacy-0.9")
                      scaling_spec (VStr "alice") (VStr "p1") VNone (VDict ∅)
                      (VTime 10) (VTime 200) ]} 8) /\
    id p' = VStr "policy-7" /\ created_at p' = VTime 10 /\
    updated_at p' = VTime 200.
Proof.
  apply (rehydrated_store_updates PolicyBase stored_record stored_policy 200
           admin_ctx (MemDB {[ "policy-7" := stored_record ]} 8)
           (po.Make (VStr "policy-7") (VStr "sp") (VStr "legacy-0.9")
              scaling_spec (VStr "alice") (VStr "p1") VNone (VDict ∅)
              (VTime 10) (VTime 200))).
  - reflexivity.
  - discriminate.
  - reflexivity.
Defined.

(** X19: an instance constructed without an [id] keyword argument is new to
    the store: [store] creates a record for it and returns that record's
    id. *)
Theorem constructed_store_creates `{Environment} `{PolicyStore DB}
    (c : cls) (nm spec0 : value) (kwargs : gmap string value) (p : Policy)
    (utcnow : Z) (ctx : context) (db : DB) (r : po.Policy) (db' : DB) :
  construct c nm spec0 kwargs = Ok p ->
  kwargs !! "id" = None ->
  policy_create ctx
    (<["created_at" := VTime utcnow]> (store_values p)) db = (Ok r, db') ->
  exists p',
    store utcnow ctx p db = (Ok (po.id r), p', db') /\
    id p' = po.id r /\ created_at p' = VTime utcnow.
Proof.
  intros Hp Hkw Hcreate.
  destruct (construct_inv c nm spec0 kwargs p Hp)
    as (_ & _ & _ & _ & Hid & _).
  rewrite Hkw in Hid.
  rewrite (store_fresh utcnow ctx p db r db' Hid Hcreate).
  eexists. by repeat split.
Qed.

Lemma constructed_store_creates_witness :
  exists p',
    store 100 admin_ctx fresh_policy (MemDB ∅ 0)
      = (Ok (VStr "policy-0"), p',
         MemDB {[ "policy-0" :=
                    po.Make (VStr "policy-0") (VStr "sp") (VStr "scaling-1.0")
                      scaling_spec (VStr "alice") (VStr "p1") VNone (VDict ∅)
                      (VTime 100) VNone ]} 1) /\
    id p' = VStr "policy-0" /\ created_at p' = VTime 100.
Proof.
  apply (constructed_store_creates PolicyBase (VStr "sp") scaling_spec
           (<["user" := VStr "alice"]> (<["project" := VStr "p1"]> ∅))
           fresh_policy 100 admin_ctx (MemDB ∅ 0)
           (po.Make (VStr "policy-0") (VStr "sp") (VStr "scaling-1.0")
              scaling_spec (VStr "alice") (VStr "p1") VNone (VDict ∅)
              (VTime 100) VNone)).
  - reflexivity.
  - reflexivity.
  - reflexivity.
Defined.

(** ** Listing as a stream *)

Section load_all.
Context `{Environment} `{PolicyListing DB}.
Variables (c : cls) (ctx : context) (limit marker sort filters : value).
Variable project_safe : bool.

Lemma take_start (n : nat) (objs : list po.Policy) (db : DB) :
  policy_get_all ctx limit marker sort filters project_safe db = Ok objs ->
  load_all_take (S n) c ctx limit marker sort filters project_safe
    GenStart db
  = load_all_take (S n) c ctx limit marker sort filters project_safe
      (GenLoop objs) db.
Proof. intros Hall. cbn [load_all_take load_all_next]. by rewrite Hall. Qed.

Lemma take_loop_prefix (front back : list po.Policy) (ps : list Policy)
    (db : DB) :
  Forall2 (fun r p => _from_object c r = Ok p) front ps ->
  load_all_take (length front) c ctx limit marker sort filters project_safe
    (GenLoop (front ++ back)) db
  = (ps, None, GenLoop back).
Proof.
  induction 1 as [| r p front ps Hr _ IH]; [done |].
  cbn [length app load_all_take load_all_next load_all_loop].
  rewrite Hr. by rewrite IH.
Qed.

Lemma take_loop_all (objs : list po.Policy) (ps : list Policy) (db : DB) :
  Forall2 (fun r p => _from_object c r = Ok p) objs ps ->
  forall n, length objs < n ->
  load_all_take n c ctx limit marker sort filters project_safe
    (GenLoop objs) db
  = (ps, Some StopIteration, GenDone).
Proof.
  induction 1 as [| r p objs ps Hr _ IH]; intros [| n] Hn;
    cbn [length] in Hn; try lia; [done |].
  cbn [load_all_take load_all_next load_all_loop]. rewrite Hr.
  rewrite IH by lia. done.
Qed.

Lemma take_loop_fail (good rest : list po.Policy) (bad : po.Policy)
    (ps : list Policy) (e : exn) (db : DB) :
  Forall2 (fun r p => _from_object c r = Ok p) good ps ->
  _from_object c bad = Raise e ->
  forall n, length good < n ->
  load_all_take n c ctx limit marker sort filters project_safe
    (GenLoop (good ++ bad :: rest)) db
  = (ps, Some (Raised e), GenDone).
Proof.
  intros Hgood Hbad.
  induction Hgood as [| r p good ps Hr _ IH]; intros [| n] Hn;
    cbn [length] in Hn; try lia;
    cbn [app load_all_take load_all_next load_all_loop].
  - by rewrite Hbad.
  - rewrite Hr. rewrite IH by lia. done.
Qed.

Lemma rehydrated_all (objs : list po.Policy) (ps : list Policy) :
  Forall2 (fun r p => _from_object c r = Ok p) objs ps ->
  Forall2 rehydrated_from ps objs.
Proof.
  induction 1; constructor; [by apply (from_object_rehydrated c) | done].
Qed.
End load_all.

(** X20: drawn to its end, [load_all] yields one instance per record the
    store lists, in the store's order, each carrying its record's fields,
    and then stops. *)
Theorem load_all_yields_all `{Environment} `{PolicyListing DB} (c : cls)
    (ctx : context) (limit marker sort filters : value)
    (project_safe : bool) (db : DB) (objs : list po.Policy)
    (ps : list Policy) (n : nat) :
  policy_get_all ctx limit marker sort filters project_safe db = Ok objs ->
  Forall2 (fun r p => _from_object c r = Ok p) objs ps ->
  length objs < n ->
  load_all_take n c ctx limit marker sort filters project_safe GenStart db
    = (ps, Some StopIteration, GenDone) /\
  Forall2 rehydrated_from ps objs.
Proof.
  intros Hall Hobjs Hn. split; [| by apply (rehydrated_all c)].
  destruct n as [| n]; [lia |].
  rewrite (take_start c ctx limit marker sort filters project_safe n objs db
             Hall).
  by apply take_loop_all.
Qed.

Lemma load_all_yields_all_witness :
  load_all_take 5 PolicyBase admin_ctx VNone VNone VNone VNone true GenStart
    (MemDB {[ "policy-7" := stored_record ]} 8)
    = ([stored_policy], Some StopIteration, GenDone) /\
  Forall2 rehydrated_from [stored_policy] [stored_record].
Proof.
  apply (load_all_yields_all PolicyBase admin_ctx VNone VNone VNone VNone
           true (MemDB {[ "policy-7" := stored_record ]} 8)
           [stored_record] [stored_policy] 5).
  - reflexivity.
  - repeat constructor.
  - simpl. lia.
Defined.

(** X21: the first record that fails to rehydrate ends the stream with its
    error: the instances before it have been yielded, the records after it
    are never looked at. *)
Theorem load_all_stops_at_first_failure `{Environment} `{PolicyListing DB}
    (c : cls) (ctx : context) (limit marker sort filters : value)
    (project_safe : bool) (db : DB) (good rest : list po.Policy)
    (bad : po.Policy) (ps : list Policy) (e : exn) (n : nat) :
  policy_get_all ctx limit marker sort filters project_safe db
    = Ok (good ++ bad :: rest)%list ->
  Forall2 (fun r p => _from_object c r = Ok p) good ps ->
  _from_object c bad = Raise e ->
  length good < n ->
  load_all_take n c ctx limit marker sort filters project_safe GenStart db
    = (ps, Some (Raised e), GenDone).
Proof.
  intros Hall Hgood Hbad Hn. destruct n as [| n]; [lia |].
  rewrite (take_start c ctx limit marker sort filters project_safe n _ db
             Hall).
  by apply take_loop_fail.
Qed.

Lemma load_all_stops_at_first_failure_witness :
  load_all_take 5 PolicyBase admin_ctx VNone VNone VNone VNone true GenStart
    (MemDB (<["policy-9" := broken_record]>
              {[ "policy-7" := stored_record ]}) 10)
    = ([stored_policy], Some (Raised SpecValidationFailed), GenDone).
Proof.
  apply (load_all_stops_at_first_failure PolicyBase admin_ctx VNone VNone
           VNone VNone true
           (MemDB (<["policy-9" := broken_record]>
                     {[ "policy-7" := stored_record ]}) 10)
           [stored_record] [] broken_record [stored_policy]
           SpecValidationFailed 5).
  - reflexivity.
  - repeat constructor.
  - reflexivity.
  - simpl. lia.
Defined.

(** X22: a consumer that draws only some instances gets them whatever the
    rest of the listing is like; the generator stays suspended on the
    records not yet visited. *)
Theorem load_all_lazy_prefix `{Environment} `{PolicyListing DB} (c : cls)
    (ctx : context) (limit marker sort filters : value)
    (project_safe : bool) (db : DB) (front back : list po.Policy)
    (ps : list Policy) :
  policy_get_all ctx limit marker sort filters project_safe db
    = Ok (front ++ back)%list ->
  Forall2 (fun r p => _from_object c r = Ok p) front ps ->
  front <> [] ->
  load_all_take (length front) c ctx limit marker sort filters project_safe
    GenStart db
  = (ps, None, GenLoop back).
Proof.
  intros Hall Hfront Hne.
  destruct front as [| r front']; [done |]. cbn [length].
  rewrite (take_start c ctx limit marker sort filters project_safe _ _ db
             Hall).
  change (S (length front')) with (length (r :: front')).
  by apply take_loop_prefix.
Qed.

Lemma load_all_lazy_prefix_witness :
  load_all_take 1 PolicyBase admin_ctx VNone VNone VNone VNone true GenStart
    (MemDB (<["policy-9" := broken_record]>
              {[ "policy-7" := stored_record ]}) 10)
    = ([stored_policy], None, GenLoop [broken_record]).
Proof.
  apply (load_all_lazy_prefix PolicyBase admin_ctx VNone VNone VNone VNone
           true
           (MemDB (<["policy-9" := broken_record]>
                     {[ "policy-7" := stored_record ]}) 10)
           [stored_record] [broken_record] [stored_policy]).
  - reflexivity.
  - repeat constructor.
  - discriminate.
Defined.

(** X23: a listing the store refuses surfaces at the first draw; and once a
    draw has ended in anything but a [yield], the generator is finished and
    every later draw only reports the end. *)
Theorem load_all_finished_stays_finished `{Environment} `{PolicyListing DB}
    (c : cls) (ctx : context) (limit marker sort filters : value)
    (project_safe : bool) (g : gen_state) (db : DB) :
  (forall e,
     policy_get_all ctx limit marker sort filters project_safe db = Raise e ->
     load_all_next c ctx limit marker sort filters project_safe GenStart db
       = (Raised e, GenDone)) /\
  (forall step g',
     load_all_next c ctx limit marker sort filters project_safe g db
       = (step, g') ->
     (forall p, step <> Yield p) ->
     g' = GenDone /\
     forall db2,
       load_all_next c ctx limit marker sort filters project_safe g' db2
         = (StopIteration, GenDone)).
Proof.
  split.
  - intros e Hall. cbn [load_all_next]. by rewrite Hall.
  - intros step g' Hnext Hstop.
    assert (g' = GenDone) as ->; [| done].
    assert (forall objs, load_all_loop c objs = (step, g') -> g' = GenDone)
      as Hloop.
    { intros [| r objs]; cbn [load_all_loop]; [by intros [= _ <-] |].
      destruct (_from_object c r) as [p |];
        [intros [= <- _]; by destruct (Hstop p) | by intros [= _ <-]]. }
    destruct g as [| objs |]; cbn [load_all_next] in Hnext.
    + destruct (policy_get_all _ _ _ _ _ _ _) as [objs |];
        [by apply (Hloop objs) | by injection Hnext as _ <-].
    + by apply (Hloop objs).
    + by injection Hnext as _ <-.
Qed.

Lemma load_all_finished_stays_finished_witness :
  GenDone = GenDone /\
  forall db2 : mem_db,
    load_all_next PolicyBase admin_ctx VNone VNone VNone VNone true GenDone
      db2 = (StopIteration, GenDone).
Proof.
  apply (proj2 (load_all_finished_stays_finished PolicyBase admin_ctx VNone
                  VNone VNone VNone true (GenLoop [broken_record])
                  (MemDB ∅ 0))
           (Raised SpecValidationFailed) GenDone).
  - reflexivity.
  - discriminate.
Defined.

(** ** The serialized form *)

(** X24: the serialized form of an instance rehydrated from a record shows
    the record: its id, name, type, owner, spec and data as stored, and its
    two time stamps as [format_time] renders them. *)
Theorem to_dict_of_rehydrated `{Environment} `{Utils} (c : cls)
    (r : po.Policy) (p : Policy) :
  _from_object c r = Ok p ->
  to_dict p !! "id" = Some (po.id r) /\
  to_dict p !! "name" = Some (po.name r) /\
  to_dict p !! "type" = Some (po.type r) /\
  to_dict p !! "user" = Some (po.user r) /\
  to_dict p !! "project" = Some (po.project r) /\
  to_dict p !! "domain" = Some (po.domain r) /\
  to_dict p !! "spec" = Some (po.spec r) /\
  to_dict p !! "data" = Some (po.data r) /\
  to_dict p !! "created_at" = Some (format_time (po.created_at r)) /\
  to_dict p !! "updated_at" = Some (format_time (po.updated_at r)).
Proof.
  intros Hp.
  destruct (from_object_rehydrated c r p Hp)
    as (Hi & Hn & Ht & Hs & Hu & Hpr & Hd & Hda & Hc & Hup).
  unfold to_dict. rewrite Hi, Hn, Ht, Hs, Hu, Hpr, Hd, Hda, Hc, Hup.
  repeat split; by simplify_map_eq.
Qed.

Lemma to_dict_of_rehydrated_witness :
  to_dict stored_policy !! "id" = Some (VStr "policy-7") /\
  to_dict stored_policy !! "type" = Some (VStr "legacy-0.9") /\
  to_dict stored_policy !! "created_at" = Some (VStr "10") /\
  to_dict stored_policy !! "updated_at" = Some VNone.
Proof.
  destruct (to_dict_of_rehydrated PolicyBase stored_record stored_policy)
    as (Hi & _ & Ht & _ & _ & _ & _ & _ & Hc & Hup); [reflexivity |].
  exact (conj Hi (conj Ht (conj Hc Hup))).
Defined.

(** X25: the serialized form has exactly ten keys, none of them for the
    schema-checked properties or the singleton flag, and on the seven
    fields [store] writes it shows the very values written. *)
Theorem to_dict_keys_and_store_values `{Utils} (self : Policy) :
  dom (to_dict self)
    = ({[ "id"; "name"; "type"; "user"; "project"; "domain"; "spec";
          "created_at"; "updated_at"; "data" ]} : gset string) /\
  store_values self ⊆ to_dict self.
Proof.
  split.
  - unfold to_dict. rewrite !dom_insert_L, dom_empty_L. set_solver.
  - apply map_subseteq_spec. intros key v Hkey.
    unfold store_values in Hkey.
    rewrite !lookup_insert_Some, lookup_empty in Hkey. unfold to_dict.
    repeat (destruct Hkey as [[<- <-] | [_ Hkey]]; [by simplify_map_eq |]).
    done.
Qed.

(** ** Connection parameters, error cases and shape *)

(** X26: a credential record without an ['openstack'] entry, or whose
    ['openstack'] entry has no ['trust'], makes [_build_conn_params] raise
    the [KeyError] of the failed lookup, not [TrustNotFound]. *)
Theorem build_conn_params_missing_trust `{CredentialStore} (k : kind)
    (cluster : Cluster) (c : Credential) (d : gmap string value) :
  credential_get get_current (cluster_user cluster) (cluster_project cluster)
    = Ok (Some c) ->
  cred c = VDict d ->
  (d !! "openstack" = None ->
   _build_conn_params k cluster = Raise (KeyError "openstack")) /\
  (forall o : gmap string value,
     d !! "openstack" = Some (VDict o) -> o !! "trust" = None ->
     _build_conn_params k cluster = Raise (KeyError "trust")).
Proof.
  intros Hget Hcred. unfold _build_conn_params. cbn [py_get bind].
  rewrite Hget. cbn [bind]. rewrite Hcred. cbn [py_getitem]. split.
  - by intros ->.
  - intros o -> Htrust. cbn [bind py_getitem]. by rewrite Htrust.
Qed.

Lemma build_conn_params_missing_trust_witness :
  @_build_conn_params bare_credentials ScalingPolicy (cluster_of "server")
  = Raise (KeyError "openstack").
Proof.
  apply (proj1 (@build_conn_params_missing_trust bare_credentials
                  ScalingPolicy (cluster_of "server") {| cred := VDict ∅ |}
                  ∅ eq_refl eq_refl)).
  reflexivity.
Defined.

(** X27: what [_build_conn_params] returns is always a dict of exactly the
    five keys [username], [password], [auth_url], [user_domain_name] and
    [trust_id], and it is the same for every policy kind. *)
Theorem build_conn_params_shape `{CredentialStore} (k : kind)
    (cluster : Cluster) (v : value) :
  _build_conn_params k cluster = Ok v ->
  (exists params : gmap string value,
     v = VDict params /\
     dom params = ({[ "username"; "password"; "auth_url";
                      "user_domain_name"; "trust_id" ]} : gset string)) /\
  forall k', _build_conn_params k' cluster = Ok v.
Proof.
  unfold _build_conn_params. cbn [py_get bind].
  destruct (credential_get _ _ _) as [[c |] |]; cbn [bind];
    try discriminate.
  destruct (py_getitem (cred c) "openstack") as [o |]; cbn [bind];
    [| discriminate].
  destruct (py_getitem o "trust") as [t |]; cbn [bind]; [| discriminate].
  intros [= <-]. split; [| done]. eexists. split; [reflexivity |].
  rewrite !dom_insert_L, dom_empty_L. set_solver.
Qed.

Lemma build_conn_params_shape_witness :
  (exists params : gmap string value,
     VDict (<["trust_id" := VStr "t-42"]>
            (<["username" := VStr "senlin"]>
            (<["password" := VStr "secret"]>
            (<["auth_url" := VStr "http://keystone/v3"]>
            (<["user_domain_name" := VStr "Default"]> ∅)))))
       = VDict params /\
     dom params = ({[ "username"; "password"; "auth_url";
                      "user_domain_name"; "trust_id" ]} : gset string)) /\
  forall k', _build_conn_params k' (cluster_of "server")
             = Ok (VDict (<["trust_id" := VStr "t-42"]>
                         (<["username" := VStr "senlin"]>
                         (<["password" := VStr "secret"]>
                         (<["auth_url" := VStr "http://keystone/v3"]>
                         (<["user_domain_name" := VStr "Default"]> ∅)))))).
Proof.
  apply (build_conn_params_shape ScalingPolicy (cluster_of "server")).
  reflexivity.
Defined.
